(** * dailyalerts: indicator pipeline of [main.py]

    A shallow embedding of the indicator functions ([calculate_rsi],
    [calculate_macd], [simulate_mvrv]), of the report formatter
    ([generate_report]) and of the per-asset loop of [main.py].

    Numbers.  The program computes on pandas [Series] of IEEE doubles.  A
    double is modelled by [float64]: an exact rational, or one of the three
    special values NaN, +inf, -inf, with the IEEE rules for the special
    values (NaN is absorbing, inf - inf = NaN, x / 0 = +-inf or NaN,
    comparisons with NaN are false).  Rounding of finite results is not
    modelled (arithmetic on finite values is exact), there is no overflow,
    and zero carries no sign.

    pandas.  [Series.diff], [Series.clip], [Series.rolling(w).mean()] and
    [Series.ewm(span, adjust=False).mean()] are library code; they are
    modelled after their documented behaviour with default arguments. *)

From Stdlib Require Import String Ascii.
From Stdlib Require Import QArith Qabs ZArith Bool Arith Lia Lqa DecimalString List.
From Stdlib Require Import Permutation Sorted.
Import ListNotations.

Open Scope Q_scope.

(* ------------------------------------------------------------------ *)
(** ** Doubles *)

Module Float.

Inductive float64 : Type :=
| NaN
| PInf
| NInf
| Fin (q : Q).

Definition is_nan (x : float64) : bool :=
  match x with NaN => true | _ => false end.

Definition is_inf (x : float64) : bool :=
  match x with PInf | NInf => true | _ => false end.

Definition fneg (x : float64) : float64 :=
  match x with
  | NaN => NaN
  | PInf => NInf
  | NInf => PInf
  | Fin q => Fin (- q)
  end.

Definition fadd (x y : float64) : float64 :=
  match x, y with
  | NaN, _ | _, NaN => NaN
  | PInf, NInf | NInf, PInf => NaN
  | PInf, _ | _, PInf => PInf
  | NInf, _ | _, NInf => NInf
  | Fin a, Fin b => Fin (a + b)
  end.

Definition fsub (x y : float64) : float64 := fadd x (fneg y).

(** The infinity with the sign of [q], and NaN for [q = 0]. *)
Definition inf_signed (q : Q) (pos : bool) : float64 :=
  match q ?= 0 with
  | Eq => NaN
  | Gt => if pos then PInf else NInf
  | Lt => if pos then NInf else PInf
  end.

Definition fmul (x y : float64) : float64 :=
  match x, y with
  | NaN, _ | _, NaN => NaN
  | PInf, PInf | NInf, NInf => PInf
  | PInf, NInf | NInf, PInf => NInf
  | PInf, Fin q | Fin q, PInf => inf_signed q true
  | NInf, Fin q | Fin q, NInf => inf_signed q false
  | Fin a, Fin b => Fin (a * b)
  end.

(** Float division as numpy does it: no exception, [x / 0] is an infinity
    with the sign of [x], and [0 / 0] is NaN. *)
Definition fdiv (x y : float64) : float64 :=
  match x, y with
  | NaN, _ | _, NaN => NaN
  | (PInf | NInf), (PInf | NInf) => NaN
  | Fin _, (PInf | NInf) => Fin 0
  | PInf, Fin b => if Qle_bool 0 b then PInf else NInf
  | NInf, Fin b => if Qle_bool 0 b then NInf else PInf
  | Fin a, Fin b =>
      if Qeq_bool b 0 then inf_signed a true else Fin (a / b)
  end.

(** Python's [<], [>], [==] and [!=] on floats. *)
Definition flt (x y : float64) : bool :=
  match x, y with
  | NaN, _ | _, NaN => false
  | _, NInf => false
  | PInf, _ => false
  | NInf, _ => true
  | _, PInf => true
  | Fin a, Fin b => negb (Qle_bool b a)
  end.

Definition fgt (x y : float64) : bool := flt y x.

Definition feqb (x y : float64) : bool :=
  match x, y with
  | PInf, PInf | NInf, NInf => true
  | Fin a, Fin b => Qeq_bool a b
  | _, _ => false
  end.

Definition fneb (x y : float64) : bool := negb (feqb x y).

(** Equality of doubles as values: the rationals up to [Qeq]. *)
Definition feq (x y : float64) : Prop :=
  match x, y with
  | NaN, NaN | PInf, PInf | NInf, NInf => True
  | Fin a, Fin b => a == b
  | _, _ => False
  end.

End Float.
Export Float.

Declare Scope float_scope.
Delimit Scope float_scope with float.
Infix "=f=" := feq (at level 70, no associativity) : float_scope.
Open Scope float_scope.

(* ------------------------------------------------------------------ *)
(** ** pandas Series *)

Definition Series := list float64.

Module Pandas.

(** [s.diff()]: first entry NaN, then [s[i] - s[i-1]]. *)
Fixpoint diff_from (prev : float64) (xs : Series) : Series :=
  match xs with
  | [] => []
  | x :: rest => fsub x prev :: diff_from x rest
  end.

Definition diff (xs : Series) : Series :=
  match xs with
  | [] => []
  | x :: rest => NaN :: diff_from x rest
  end.

(** [s.clip(lower=lo)] and [s.clip(upper=hi)]; NaN stays NaN. *)
Definition clip_lower (lo : float64) (x : float64) : float64 :=
  if is_nan x then NaN else if flt x lo then lo else x.

Definition clip_upper (hi : float64) (x : float64) : float64 :=
  if is_nan x then NaN else if fgt x hi then hi else x.

(** Element-wise binary operation on two series with the same index. *)
Fixpoint zip_with (f : float64 -> float64 -> float64) (xs ys : Series) : Series :=
  match xs, ys with
  | x :: xs', y :: ys' => f x y :: zip_with f xs' ys'
  | _, _ => []
  end.

(** The sum of a window all of whose entries are observations.  The rolling
    functions first turn infinities into NaN, and NaN is not an
    observation. *)
Fixpoint finite_sum (win : list float64) : option Q :=
  match win with
  | [] => Some 0
  | Fin q :: rest =>
      match finite_sum rest with
      | Some s => Some (q + s)
      | None => None
      end
  | _ :: _ => None
  end.

Definition window_at (w : nat) (xs : Series) (i : nat) : list float64 :=
  firstn w (skipn (i + 1 - w) xs).

Definition mean_of (w : nat) (win : list float64) : float64 :=
  match finite_sum win with
  | Some s => Fin (s / inject_Z (Z.of_nat w))
  | None => NaN
  end.

(** [s.rolling(window=w).mean()]: [min_periods] defaults to [w], so entry
    [i] is a number only when the [w] entries ending at [i] exist and are
    all observations. *)
Definition rolling_mean (w : nat) (xs : Series) : Series :=
  map (fun i =>
         if ((1 <=? w) && (w <=? i + 1))%nat
         then mean_of w (window_at w xs i)
         else NaN)
      (seq 0 (length xs)).

(** [s.ewm(span=span, adjust=False).mean()], with [alpha = 2/(span+1)].
    The running state is the last average [weighted] and the weight
    [old_wt] it carries; a NaN entry repeats the last average and lets its
    weight decay; an entry equal to the running average leaves it as it is.
    Entries are averaged as they are: the replacement of infinite entries
    by NaN that pandas does before its window routines is modelled for
    [rolling_mean] only, so [ewm_mean] stands for pandas on series without
    infinite entries. *)
Definition alpha_of_span (span : positive) : Q := 2 # (span + 1).

Definition ewm_step (alpha : Q) (st : float64 * Q) (cur : float64)
  : float64 * Q :=
  let '(weighted, old_wt) := st in
  if is_nan weighted then
    (if is_nan cur then weighted else cur, old_wt)
  else
    let old_wt := old_wt * (1 - alpha) in
    if is_nan cur then (weighted, old_wt)
    else
      (if fneb weighted cur
       then fdiv (fadd (fmul (Fin old_wt) weighted) (fmul (Fin alpha) cur))
                 (Fin (old_wt + alpha))
       else weighted,
       1).

Fixpoint ewm_loop (alpha : Q) (st : float64 * Q) (xs : Series) : Series :=
  match xs with
  | [] => []
  | cur :: rest =>
      let st' := ewm_step alpha st cur in
      fst st' :: ewm_loop alpha st' rest
  end.

Definition ewm_mean (span : positive) (xs : Series) : Series :=
  match xs with
  | [] => []
  | x0 :: rest => x0 :: ewm_loop (alpha_of_span span) (x0, 1) rest
  end.

End Pandas.
Export Pandas.

(* ------------------------------------------------------------------ *)
(** ** Indicators ([main.py], lines 75-95) *)

Definition hundred : float64 := Fin 100.
Definition one : float64 := Fin 1.
Definition zero : float64 := Fin 0.

(** The intermediate series of [calculate_rsi]. *)
Definition rsi_gain (prices : Series) : Series :=
  map (clip_lower zero) (diff prices).

Definition rsi_loss (prices : Series) : Series :=
  map fneg (map (clip_upper zero) (diff prices)).

Definition rsi_avg_gain (prices : Series) (window : nat) : Series :=
  rolling_mean window (rsi_gain prices).

Definition rsi_avg_loss (prices : Series) (window : nat) : Series :=
  rolling_mean window (rsi_loss prices).

Definition rsi_of_rs (rs : float64) : float64 :=
  fsub hundred (fdiv hundred (fadd one rs)).

Definition calculate_rsi (prices : Series) (window : nat) : Series :=
  let avg_gain := rsi_avg_gain prices window in
  let avg_loss := rsi_avg_loss prices window in
  let rs := zip_with fdiv avg_gain avg_loss in
  let rsi := map rsi_of_rs rs in
  rsi.

Definition calculate_macd (prices : Series) (short long signal : positive)
  : Series * Series :=
  let ema_short := ewm_mean short prices in
  let ema_long := ewm_mean long prices in
  let macd := zip_with fsub ema_short ema_long in
  let signal_line := ewm_mean signal macd in
  (macd, signal_line).

Definition simulate_mvrv (prices : Series) : Series :=
  let realized_price := rolling_mean 30 prices in
  let mvrv := zip_with fdiv prices realized_price in
  mvrv.

(* ------------------------------------------------------------------ *)
(** ** Text *)

Open Scope string_scope.

Definition nl : string := String (ascii_of_nat 10) EmptyString.

Definition digits (n : Z) : string :=
  NilZero.string_of_uint (N.to_uint (Z.to_N n)).

Definition pad2 (n : Z) : string :=
  if (n <? 10)%Z then "0" ++ digits n else digits n.

Definition pad4 (n : Z) : string :=
  if (n <? 10)%Z then "000" ++ digits n
  else if (n <? 100)%Z then "00" ++ digits n
  else if (n <? 1000)%Z then "0" ++ digits n
  else digits n.

(** The nearest integer to a non-negative rational, ties to even. *)
Definition round_half_even (q : Q) : Z :=
  let n := Qnum q in
  let d := Zpos (Qden q) in
  let k := (n / d)%Z in
  match (2 * (n mod d) ?= d)%Z with
  | Lt => k
  | Gt => (k + 1)%Z
  | Eq => if Z.even k then k else (k + 1)%Z
  end.

(** The format specification [:.2f] on a float. *)
Definition format_2f (x : float64) : string :=
  match x with
  | NaN => "nan"
  | PInf => "inf"
  | NInf => "-inf"
  | Fin q =>
      let c := round_half_even (Qabs q * 100) in
      (if Qle_bool 0 q then "" else "-")
        ++ digits (c / 100) ++ "." ++ pad2 (c mod 100)
  end.

(** [str.lower()] on ASCII letters. *)
Definition lower_ascii (c : ascii) : ascii :=
  let n := nat_of_ascii c in
  if ((65 <=? n) && (n <=? 90))%nat then ascii_of_nat (n + 32) else c.

Fixpoint lower (s : string) : string :=
  match s with
  | EmptyString => EmptyString
  | String c rest => String (lower_ascii c) (lower rest)
  end.

(** Calendar dates, printed as [datetime.date] prints them. *)
Record date : Type := mkDate { year : Z; month : Z; day : Z }.

Definition str_date (d : date) : string :=
  pad4 (year d) ++ "-" ++ pad2 (month d) ++ "-" ++ pad2 (day d).

(* ------------------------------------------------------------------ *)
(** ** Exceptions, the world, and the monad of the script *)

(** The exceptions the script can meet, all of them subclasses of
    [Exception]: the two pandas raises on the path of the loop, and any
    other one raised by a collaborator (requests, matplotlib, smtplib). *)
Inductive exn : Type :=
| KeyError (key : string)
| IndexError (msg : string)
| OtherException (msg : string).

Definition str_exn (e : exn) : string :=
  match e with
  | KeyError key => "'" ++ key ++ "'"
  | IndexError msg => msg
  | OtherException msg => msg
  end.

(** What a run leaves behind, oldest first: the lines printed, the mails
    delivered (subject, body) and the names under which a chart was saved,
    one entry per [savefig] (saving under a name already used replaces the
    file on disk; the list records the saves, not the directory). *)
Record World : Type := mkWorld {
  console : list string;
  outbox : list (string * string);
  charts : list string
}.

Definition M (A : Type) : Type := World -> (exn + A) * World.

Definition ret {A} (a : A) : M A := fun w => (inr a, w).

Definition raise {A} (e : exn) : M A := fun w => (inl e, w).

Definition bind {A B} (m : M A) (k : A -> M B) : M B :=
  fun w =>
    match m w with
    | (inl e, w') => (inl e, w')
    | (inr a, w') => k a w'
    end.

(** [try: body except Exception as e: handler(e)] *)
Definition try_except {A} (body : M A) (handler : exn -> M A) : M A :=
  fun w =>
    match body w with
    | (inl e, w') => handler e w'
    | (inr a, w') => (inr a, w')
    end.

Definition lift {A} (r : exn + A) : M A :=
  match r with
  | inl e => raise e
  | inr a => ret a
  end.

Declare Scope script_scope.
Delimit Scope script_scope with script.
Notation "x <- m ;; k" := (bind m (fun x => k))
  (at level 61, m at next level, right associativity) : script_scope.
Notation "m ;; k" := (bind m (fun _ => k))
  (at level 61, right associativity) : script_scope.
Open Scope script_scope.

Definition print (line : string) : M unit :=
  fun w => (inr tt, mkWorld (console w ++ [line]) (outbox w) (charts w)).

(* ------------------------------------------------------------------ *)
(** ** Frames *)

(** What a fetch function returns: a frame with the columns [Date] and
    [Price], or, when [fetch_gold_prices] got no daily entries, a frame
    without any column ([pd.DataFrame([])]). *)
Inductive Fetched : Type :=
| NoColumns
| Rows (rows : list (date * float64)).

(** The frame once the loop has set its four indicator columns. *)
Record DataFrame : Type := mkDataFrame {
  Date : list date;
  Price : Series;
  RSI : Series;
  MACD : Series;
  Signal : Series;
  MVRV : Series
}.

Record Row : Type := mkRow {
  row_Date : date;
  row_Price : float64;
  row_RSI : float64;
  row_MACD : float64;
  row_Signal : float64;
  row_MVRV : float64
}.

(** [df['Price']] on a fetched frame. *)
Definition getitem_Price (f : Fetched) : exn + Series :=
  match f with
  | NoColumns => inl (KeyError "Price")
  | Rows rows => inr (map snd rows)
  end.

Definition getitem_Date (f : Fetched) : list date :=
  match f with
  | NoColumns => []
  | Rows rows => map fst rows
  end.

(** [df.iloc[-1]]: the row at the last position of the index. *)
Definition iloc_last (df : DataFrame) : exn + Row :=
  match rev (Date df) with
  | [] => inl (IndexError "single positional indexer is out-of-bounds")
  | d :: _ =>
      let i := (length (Date df) - 1)%nat in
      inr (mkRow d (nth i (Price df) NaN) (nth i (RSI df) NaN)
                 (nth i (MACD df) NaN) (nth i (Signal df) NaN)
                 (nth i (MVRV df) NaN))
  end.

(* ------------------------------------------------------------------ *)
(** ** The collaborators *)

(** The answers of the outside world during one run: the two price
    providers, matplotlib and the mail server. *)
Record Env : Type := mkEnv {
  fetch_gold_prices : exn + Fetched;
  fetch_crypto_prices : string -> exn + Fetched;
  savefig : string -> DataFrame -> option exn;
  smtp_send : string -> string -> option exn
}.

Section Script.

Variable env : Env.

(** [send_alert] (lines 18-33): the mail is sent inside its own
    [try]/[except], so the function itself never raises. *)
Definition send_alert (subject body : string) : M unit :=
  try_except
    (match smtp_send env subject body with
     | Some e => raise e
     | None =>
         (fun w => (inr tt,
                    mkWorld (console w) (outbox w ++ [(subject, body)])
                            (charts w))) ;;
         print "✅ Gmail alert sent."
     end)
    (fun e => print ("⚠️ Gmail alert failed: " ++ str_exn e)).

(** [plot_indicators] (lines 98-112). *)
Definition plot_indicators (df : DataFrame) (asset : string) : M unit :=
  match savefig env asset df with
  | Some e => raise e
  | None =>
      fun w => (inr tt,
                mkWorld (console w) (outbox w)
                        (charts w ++ [lower asset ++ "_chart.png"]))
  end.

(** The three conditional expressions of the report (lines 119-122). *)
Definition rsi_zone (latest : Row) : string :=
  if flt (row_RSI latest) (Fin 30) then "Oversold" else "Neutral/Bullish".

Definition macd_trend (latest : Row) : string :=
  if fgt (row_MACD latest) (row_Signal latest) then "Bullish" else "Bearish".

Definition mvrv_valuation (latest : Row) : string :=
  if flt (row_MVRV latest) (Fin 1) then "Undervalued" else "Fairly Valued".

(** The f-string of [generate_report] (lines 116-123). *)
Definition report_text (asset : string) (latest : Row) : string :=
  "📊 " ++ asset ++ " Valuation Report (" ++ str_date (row_Date latest)
    ++ "):" ++ nl
    ++ "Price: $" ++ format_2f (row_Price latest) ++ nl
    ++ "RSI: " ++ format_2f (row_RSI latest) ++ " → " ++ rsi_zone latest
    ++ nl
    ++ "MACD: " ++ format_2f (row_MACD latest) ++ ", Signal: "
    ++ format_2f (row_Signal latest) ++ " → "
    ++ macd_trend latest ++ nl
    ++ "MVRV: " ++ format_2f (row_MVRV latest) ++ " → "
    ++ mvrv_valuation latest.

(** [generate_report] (lines 114-125). *)
Definition generate_report (asset : string) (df : DataFrame) : M unit :=
  latest <- lift (iloc_last df) ;;
  let report := report_text asset latest in
  print report ;;
  send_alert (asset ++ " Daily Valuation") report.

(** The [assets] table (lines 128-132), in insertion order. *)
Definition assets : list (string * (exn + Fetched)) :=
  [ ("Gold", fetch_gold_prices env);
    ("Bitcoin", fetch_crypto_prices env "bitcoin");
    ("Ethereum", fetch_crypto_prices env "ethereum") ].

(** The frame after lines 137-139. *)
Definition with_indicators (fetched : Fetched) (price : Series) : DataFrame :=
  let rsi := calculate_rsi price 14 in
  let '(macd, signal_line) := calculate_macd price 12 26 9 in
  let mvrv := simulate_mvrv price in
  mkDataFrame (getitem_Date fetched) price rsi macd signal_line mvrv.

(** The body of the [try] (lines 136-141). *)
Definition pipeline (asset : string) (fetch_func : exn + Fetched) : M unit :=
  fetched <- lift fetch_func ;;
  price <- lift (getitem_Price fetched) ;;
  let df := with_indicators fetched price in
  plot_indicators df asset ;;
  generate_report asset df.

(** One turn of the loop (lines 135-143). *)
Definition process_asset (entry : string * (exn + Fetched)) : M unit :=
  let '(asset, fetch_func) := entry in
  try_except
    (pipeline asset fetch_func)
    (fun e => print ("⚠️ Error processing " ++ asset ++ ": " ++ str_exn e)).

(** [for asset, fetch_func in items: ...] *)
Fixpoint for_each (items : list (string * (exn + Fetched))) : M unit :=
  match items with
  | [] => ret tt
  | entry :: rest => process_asset entry ;; for_each rest
  end.

Definition main : M unit := for_each assets.

End Script.

Definition world0 : World := mkWorld [] [] [].

(* ------------------------------------------------------------------ *)
(** ** The fetch functions ([main.py], lines 50-72)

    The HTTP exchange is a collaborator: [requests.get(...).json()] either
    raises or gives the JSON body, taken here with the shape the providers
    document, and [datetime.today()] gives the day of the call. *)

Module Fetch.

Definition DAYS : nat := 180.

(** The Gregorian calendar, one day back. *)
Definition is_leap (y : Z) : bool :=
  (((y mod 4 =? 0) && negb (y mod 100 =? 0)) || (y mod 400 =? 0))%Z.

Definition days_in_month (y m : Z) : Z :=
  if (m =? 2)%Z then (if is_leap y then 29 else 28)%Z
  else if ((m =? 4) || (m =? 6) || (m =? 9) || (m =? 11))%Z then 30%Z
  else 31%Z.

Definition prev_day (d : date) : date :=
  if (1 <? day d)%Z then mkDate (year d) (month d) (day d - 1)
  else if (1 <? month d)%Z
       then mkDate (year d) (month d - 1)
                   (days_in_month (year d) (month d - 1))
       else mkDate (year d - 1) 12 31.

(** [pd.date_range(end=today, periods=n)]: [n] consecutive days, oldest
    first, the last one being [today]. *)
Fixpoint date_range_end (today : date) (periods : nat) : list date :=
  match periods with
  | O => []
  | S n => date_range_end (prev_day today) n ++ [today]
  end.

(** The body of a [market_chart] answer as [fetch_crypto_prices] reads
    it: the value under ["prices"] when the key is there, each point being
    an array of numbers (timestamp, price). *)
Definition CryptoJson : Type := option (list (list float64)).

(** [p[1]] *)
Definition getitem_1 (p : list float64) : exn + float64 :=
  match nth_error p 1 with
  | Some x => inr x
  | None => inl (IndexError "list index out of range")
  end.

(** [[p[1] for p in points]] *)
Fixpoint second_entries (points : list (list float64))
  : exn + list float64 :=
  match points with
  | [] => inr []
  | p :: rest =>
      match getitem_1 p with
      | inl e => inl e
      | inr x =>
          match second_entries rest with
          | inl e => inl e
          | inr xs => inr (x :: xs)
          end
      end
  end.

(** [fetch_crypto_prices] (lines 50-57), given the outcome of
    [requests.get(url, params).json()] and the day of the call. *)
Definition fetch_crypto_prices (response : exn + CryptoJson) (today : date)
  : exn + Fetched :=
  match response with
  | inl e => inl e
  | inr None => inl (KeyError "prices")
  | inr (Some points) =>
      match second_entries points with
      | inl e => inl e
      | inr prices =>
          let dates := date_range_end today (length prices) in
          inr (Rows (combine dates prices))
      end
  end.

(** One item of the ["Time Series (Daily)"] object: its key, and what
    [pd.to_datetime(date)] and [float(info["4. close"])] give on it. *)
Record DailyEntry : Type := mkDailyEntry {
  entry_key : string;
  entry_date : exn + date;
  entry_close : exn + float64
}.

(** The body of the Alpha Vantage answer as [fetch_gold_prices] reads it:
    the items of ["Time Series (Daily)"] when the key is there (a JSON
    object, so no two items share a key). *)
Definition GoldJson : Type := option (list DailyEntry).

(** [sorted(data.items())]: ascending by key. *)
Fixpoint insert_sorted (x : DailyEntry) (l : list DailyEntry)
  : list DailyEntry :=
  match l with
  | [] => [x]
  | y :: rest =>
      if String.leb (entry_key x) (entry_key y) then x :: l
      else y :: insert_sorted x rest
  end.

Fixpoint sorted_items (data : list DailyEntry) : list DailyEntry :=
  match data with
  | [] => []
  | x :: rest => insert_sorted x (sorted_items rest)
  end.

(** The dict display of line 69: the date is parsed before the close. *)
Definition row_of_entry (x : DailyEntry) : exn + (date * float64) :=
  match entry_date x with
  | inl e => inl e
  | inr d =>
      match entry_close x with
      | inl e => inl e
      | inr c => inr (d, c)
      end
  end.

Fixpoint rows_of_entries (items : list DailyEntry)
  : exn + list (date * float64) :=
  match items with
  | [] => inr []
  | x :: rest =>
      match row_of_entry x with
      | inl e => inl e
      | inr r =>
          match rows_of_entries rest with
          | inl e => inl e
          | inr rs => inr (r :: rs)
          end
      end
  end.

(** [df.tail(n)] *)
Definition tail {A} (n : nat) (l : list A) : list A :=
  skipn (length l - n) l.

(** [fetch_gold_prices] (lines 59-72), given the outcome of
    [requests.get(url, params).json()]; [.get(..., {})] turns a missing
    key into the empty object, and [pd.DataFrame([])] has no column. *)
Definition fetch_gold_prices (response : exn + GoldJson) : exn + Fetched :=
  match response with
  | inl e => inl e
  | inr body =>
      let data := match body with Some items => items | None => [] end in
      match rows_of_entries (sorted_items data) with
      | inl e => inl e
      | inr [] => inr NoColumns
      | inr rows => inr (Rows (tail DAYS rows))
      end
  end.

(** The outside world of a run, down to the HTTP answers. *)
Record Http : Type := mkHttp {
  alpha_vantage : exn + GoldJson;
  coingecko : string -> exn + CryptoJson;
  clock : string -> date
}.

Definition env_of (http : Http) (savefig : string -> DataFrame -> option exn)
           (smtp_send : string -> string -> option exn) : Env :=
  mkEnv (fetch_gold_prices (alpha_vantage http))
        (fun coin_id => fetch_crypto_prices (coingecko http coin_id)
                                            (clock http coin_id))
        savefig smtp_send.

End Fetch.

(* ------------------------------------------------------------------ *)
(** ** Vocabulary of the properties *)

Close Scope string_scope.

(** A double that is a number is not negative. *)
Definition special_or_nonneg (x : float64) : Prop :=
  match x with
  | Fin q => 0 <= q
  | _ => True
  end.

(** A double that is NaN or a non-negative rational. *)
Definition nan_or_nonneg (x : float64) : Prop :=
  match x with
  | NaN => True
  | Fin q => 0 <= q
  | _ => False
  end.

(** A double that is a number. *)
Definition finite (x : float64) : Prop :=
  match x with
  | Fin _ => True
  | _ => False
  end.

(** The invariant of the data model: a price is a positive number. *)
Definition positive_price (x : float64) : Prop :=
  match x with
  | Fin q => 0 < q
  | _ => False
  end.

(** The rational counterparts of the series operations. *)
Fixpoint qsum (l : list Q) : Q :=
  match l with
  | [] => 0
  | q :: rest => q + qsum rest
  end.




(** One step of [ewm_loop] when the average and the entry are numbers and
    the carried weight is 1. *)
Definition qewm_next (alpha w p : Q) : Q :=
  if Qeq_bool w p then w
  else ((1 * (1 - alpha)) * w + alpha * p) / ((1 * (1 - alpha)) + alpha).

Fixpoint qewm_loop (alpha w : Q) (ps : list Q) : list Q :=
  match ps with
  | [] => []
  | p :: rest =>
      let w' := qewm_next alpha w p in
      w' :: qewm_loop alpha w' rest
  end.

Definition qewm_mean (span : positive) (ps : list Q) : list Q :=
  match ps with
  | [] => []
  | p :: rest => p :: qewm_loop (alpha_of_span span) p rest
  end.

Fixpoint qzip_sub (xs ys : list Q) : list Q :=
  match xs, ys with
  | x :: xs', y :: ys' => (x + - y) :: qzip_sub xs' ys'
  | _, _ => []
  end.

(** A later world keeps everything an earlier one has. *)
Definition extends (w w' : World) : Prop :=
  (exists c, console w' = console w ++ c) /\
  (exists o, outbox w' = outbox w ++ o) /\
  (exists f, charts w' = charts w ++ f).

(** The subject of the mail and the warning of the [except] branch, as
    [generate_report] and the loop build them. *)
Definition alert_subject (asset : string) : string :=
  (asset ++ " Daily Valuation")%string.

Definition error_line (asset : string) (e : exn) : string :=
  ("⚠️ Error processing " ++ asset ++ ": " ++ str_exn e)%string.

(** Concrete inputs. *)
Definition prices_of (l : list Z) : Series :=
  map (fun z => Fin (inject_Z z)) l.

(** Sixteen days of mixed moves, fifteen and thirty-one days of steady
    rise, and a flat series. *)
Definition mixed16 : Series :=
  prices_of [100; 102; 101; 105; 103; 104; 106; 108; 107; 109; 110; 111;
             112; 113; 114; 115]%Z.

Definition rising15 : Series :=
  prices_of [100; 101; 102; 103; 104; 105; 106; 107; 108; 109; 110; 111;
             112; 113; 114]%Z.

Definition rising31 : Series :=
  prices_of [100; 101; 102; 103; 104; 105; 106; 107; 108; 109; 110; 111;
             112; 113; 114; 115; 116; 117; 118; 119; 120; 121; 122; 123;
             124; 125; 126; 127; 128; 129; 130]%Z.

Definition flat31 : Series := repeat (Fin 5) 31.

Definition one_row : list (date * float64) := [(mkDate 2024 3 9, Fin 100)].

(** A run in which the gold provider is down and the mail server refuses
    the login. *)
Definition env_gold_down : Env :=
  mkEnv (inl (OtherException "connection refused"))
        (fun _ => inr (Rows one_row))
        (fun _ _ => None)
        (fun _ _ => Some (OtherException "bad credentials")).

Definition latest_one_row : Row :=
  mkRow (mkDate 2024 3 9) (Fin 100) NaN (Fin 0) (Fin 0) NaN.

(** A latest row on all three boundaries. *)
Definition boundary_row : Row :=
  mkRow (mkDate 2024 3 9) (Fin 2000) (Fin 30) (Fin (1 # 2)) (Fin (1 # 2))
        (Fin 1).

(** What a stretch of the script adds to the world it starts from. *)
Definition world_app (w added : World) : World :=
  mkWorld (console w ++ console added) (outbox w ++ outbox added)
          (charts w ++ charts added).

(** A computation that only appends to the world, and whose result and
    additions do not depend on what the world already holds. *)
Definition appends {A} (m : M A) : Prop :=
  forall w, m w = (fst (m world0), world_app w (snd (m world0))).

Definition mail_sent_line : string := "✅ Gmail alert sent."%string.

Definition mail_failed_line (e : exn) : string :=
  ("⚠️ Gmail alert failed: " ++ str_exn e)%string.

Definition chart_name (asset : string) : string :=
  (lower asset ++ "_chart.png")%string.

(** The lines one asset leaves on the console: one warning, or its report
    followed by the status of the mail. *)
Definition console_block (asset : string) (block : list string) : Prop :=
  (exists e, block = [error_line asset e]) \/
  (exists latest status,
      block = [report_text asset latest; status] /\
      (status = mail_sent_line \/ exists e, status = mail_failed_line e)).

(** The asset got as far as saving its chart. *)
Definition plotted (env : Env) (asset : string) (fetch_func : exn + Fetched)
  : Prop :=
  exists fetched price,
    fetch_func = inr fetched /\
    getitem_Price fetched = inr price /\
    savefig env asset (with_indicators fetched price) = None.

Definition chart_block (env : Env) (asset : string)
           (fetch_func : exn + Fetched) (block : list string) : Prop :=
  (plotted env asset fetch_func /\ block = [chart_name asset]) \/
  (~ plotted env asset fetch_func /\ block = []).

(** The mails one asset may add: none, or the one carrying its report. *)
Definition mail_block (env : Env) (asset : string)
           (block : list (string * string)) : Prop :=
  block = [] \/
  exists latest,
    block = [(alert_subject asset, report_text asset latest)] /\
    smtp_send env (alert_subject asset) (report_text asset latest) = None.

(** The order of [sorted] on the items of the daily series. *)
Definition key_le (x y : Fetch.DailyEntry) : Prop :=
  String.leb (Fetch.entry_key x) (Fetch.entry_key y) = true.

(** An item whose date or close does not parse. *)
Definition entry_fails (x : Fetch.DailyEntry) : Prop :=
  exists e, Fetch.row_of_entry x = inl e.

(** A run in which every collaborator answers. *)
Definition savefig_ok : string -> DataFrame -> option exn := fun _ _ => None.

Definition smtp_ok : string -> string -> option exn := fun _ _ => None.

Definition env_all_up : Env :=
  mkEnv (inr (Rows one_row)) (fun _ => inr (Rows one_row)) savefig_ok smtp_ok.

(** Three days of gold, listed out of order, and two points of a coin. *)
Definition gold_items : list Fetch.DailyEntry :=
  [Fetch.mkDailyEntry "2024-03-08" (inr (mkDate 2024 3 8)) (inr (Fin 2170));
   Fetch.mkDailyEntry "2024-03-09" (inr (mkDate 2024 3 9)) (inr (Fin 2180));
   Fetch.mkDailyEntry "2024-03-07" (inr (mkDate 2024 3 7)) (inr (Fin 2160))
  ]%string.

Definition gold_rows : list (date * float64) :=
  [(mkDate 2024 3 7, Fin 2160); (mkDate 2024 3 8, Fin 2170);
   (mkDate 2024 3 9, Fin 2180)].

Definition gold_item_unpriced : Fetch.DailyEntry :=
  Fetch.mkDailyEntry "2024-03-07" (inr (mkDate 2024 3 7))
                     (inl (KeyError "4. close")).

Definition two_points : list (list float64) :=
  [[Fin 1; Fin 100]; [Fin 2; Fin 101]].

(** Gold is rate-limited, Bitcoin has two points, Ethereum none. *)
Definition http_sample : Fetch.Http :=
  Fetch.mkHttp (inr None)
    (fun coin_id =>
       if String.eqb coin_id "bitcoin" then inr (Some two_points)
       else inr (Some []))
    (fun _ => mkDate 2024 3 1).

(** Both providers are rate-limited. *)
Definition http_limited : Fetch.Http :=
  Fetch.mkHttp (inr None) (fun _ => inr None) (fun _ => mkDate 2024 3 1).


(** A latest row just below both boundaries. *)
Definition near_boundary_row : Row :=
  mkRow (mkDate 2024 3 9) (Fin 2000) (Fin (29996 # 1000)) (Fin 0) (Fin 0)
        (Fin (999 # 1000)).

(** [sub in s] on strings. *)
Definition contains (sub s : string) : Prop :=
  exists pre post, s = (pre ++ sub ++ post)%string.

(** Thirty-one days at one price, and the latest row of their frame. *)
Definition flat_rows : list (date * float64) :=
  map (fun p => (mkDate 2024 3 9, p)) flat31.

Definition latest_flat_row : Row :=
  mkRow (mkDate 2024 3 9) (Fin 5) NaN (Fin 0) (Fin 0) (Fin (150 # 150)).

(* ================================================================== *)
(** * Properties *)

(* ------------------------------------------------------------------ *)
(** ** Lengths and indexing of the series operations *)

Section SeriesFacts.

Lemma length_diff_from prev xs : length (diff_from prev xs) = length xs.
Proof.
  revert prev; induction xs as [|x xs IH]; intros prev; simpl; auto.
Qed.

Lemma length_diff xs : length (diff xs) = length xs.
Proof.
  destruct xs as [|x xs]; simpl; [reflexivity|].
  now rewrite length_diff_from.
Qed.

Lemma length_zip_with f xs ys :
  length (zip_with f xs ys) = Nat.min (length xs) (length ys).
Proof.
  revert ys; induction xs as [|x xs IH]; intros [|y ys]; simpl; auto.
Qed.

Lemma length_rolling_mean w xs : length (rolling_mean w xs) = length xs.
Proof.
  unfold rolling_mean. now rewrite length_map, length_seq.
Qed.

Lemma length_ewm_loop a st xs : length (ewm_loop a st xs) = length xs.
Proof.
  revert st; induction xs as [|x xs IH]; intros st; simpl; auto.
Qed.

Lemma length_ewm_mean span xs : length (ewm_mean span xs) = length xs.
Proof.
  destruct xs as [|x xs]; simpl; [reflexivity|].
  now rewrite length_ewm_loop.
Qed.

Lemma nth_zip_with f xs ys i :
  (i < length xs)%nat -> (i < length ys)%nat ->
  nth i (zip_with f xs ys) NaN = f (nth i xs NaN) (nth i ys NaN).
Proof.
  revert ys i; induction xs as [|x xs IH]; intros [|y ys] [|i]; simpl;
    intros Hx Hy; try lia; auto.
  apply IH; lia.
Qed.

Lemma nth_map_in {A B} (f : A -> B) (l : list A) i da db :
  (i < length l)%nat -> nth i (map f l) db = f (nth i l da).
Proof.
  revert i; induction l as [|a l IH]; intros [|i]; simpl; intros Hi;
    try lia; auto.
  apply IH; lia.
Qed.

Lemma nth_rolling_mean w xs i :
  (i < length xs)%nat ->
  nth i (rolling_mean w xs) NaN =
    if ((1 <=? w) && (w <=? i + 1))%nat
    then mean_of w (window_at w xs i) else NaN.
Proof.
  intros Hi. unfold rolling_mean.
  rewrite (nth_map_in _ _ _ 0%nat) by now rewrite length_seq.
  now rewrite seq_nth.
Qed.

Lemma length_rsi_gain prices : length (rsi_gain prices) = length prices.
Proof. unfold rsi_gain. now rewrite length_map, length_diff. Qed.

Lemma length_rsi_loss prices : length (rsi_loss prices) = length prices.
Proof. unfold rsi_loss. now rewrite !length_map, length_diff. Qed.

Lemma length_calculate_rsi prices window :
  length (calculate_rsi prices window) = length prices.
Proof.
  unfold calculate_rsi, rsi_avg_gain, rsi_avg_loss.
  rewrite length_map, length_zip_with, !length_rolling_mean,
    length_rsi_gain, length_rsi_loss.
  apply Nat.min_id.
Qed.

Lemma length_macd prices short long signal :
  length (fst (calculate_macd prices short long signal)) = length prices.
Proof.
  simpl. rewrite length_zip_with, !length_ewm_mean. apply Nat.min_id.
Qed.

Lemma length_signal prices short long signal :
  length (snd (calculate_macd prices short long signal)) = length prices.
Proof.
  simpl. rewrite length_ewm_mean, length_zip_with, !length_ewm_mean.
  apply Nat.min_id.
Qed.

Lemma length_simulate_mvrv prices :
  length (simulate_mvrv prices) = length prices.
Proof.
  unfold simulate_mvrv.
  rewrite length_zip_with, length_rolling_mean. apply Nat.min_id.
Qed.

End SeriesFacts.

(** C2.  Each indicator function returns a series as long as the price
    series it was given: [calculate_rsi], both components of
    [calculate_macd], and [simulate_mvrv]; this holds for every price
    series (so for those of length at least 1) and for every window and
    span argument. *)
Theorem indicators_preserve_length :
  forall (prices : Series) (window : nat) (short long signal : positive),
    length (calculate_rsi prices window) = length prices /\
    length (fst (calculate_macd prices short long signal)) = length prices /\
    length (snd (calculate_macd prices short long signal)) = length prices /\
    length (simulate_mvrv prices) = length prices.
Proof.
  intros prices window short long signal.
  repeat split.
  - apply length_calculate_rsi.
  - apply length_macd.
  - apply length_signal.
  - apply length_simulate_mvrv.
Qed.

(* ------------------------------------------------------------------ *)
(** ** RSI *)

Section RsiFacts.

Lemma Qle_bool_false a b : Qle_bool a b = false -> b < a.
Proof.
  intros H. apply Qnot_le_lt. intros Hle.
  apply Qle_bool_iff in Hle. congruence.
Qed.

Lemma gain_nonneg x : special_or_nonneg (clip_lower zero x).
Proof.
  destruct x as [| | |q]; simpl; auto; try apply Qle_refl.
  unfold clip_lower; simpl.
  destruct (Qle_bool 0 q) eqn:E; simpl.
  - now apply Qle_bool_iff.
  - apply Qle_refl.
Qed.

Lemma loss_nonneg x : special_or_nonneg (fneg (clip_upper zero x)).
Proof.
  destruct x as [| | |q]; simpl; auto; try (unfold Qle; simpl; lia).
  unfold clip_upper; simpl.
  destruct (Qle_bool q 0) eqn:E; simpl.
  - apply Qle_bool_iff in E. lra.
  - lra.
Qed.

Lemma Forall_rsi_gain prices : Forall special_or_nonneg (rsi_gain prices).
Proof.
  unfold rsi_gain. apply Forall_forall. intros x Hx.
  apply in_map_iff in Hx as (y & <- & _). apply gain_nonneg.
Qed.

Lemma Forall_rsi_loss prices : Forall special_or_nonneg (rsi_loss prices).
Proof.
  unfold rsi_loss. rewrite map_map. apply Forall_forall. intros x Hx.
  apply in_map_iff in Hx as (y & <- & _). apply loss_nonneg.
Qed.

Lemma Forall_window (P : float64 -> Prop) w xs i :
  Forall P xs -> Forall P (window_at w xs i).
Proof.
  intros H. unfold window_at.
  rewrite <- (firstn_skipn (i + 1 - w) xs) in H.
  apply Forall_app in H as [_ H].
  rewrite <- (firstn_skipn w (skipn (i + 1 - w) xs)) in H.
  now apply Forall_app in H as [H _].
Qed.

Lemma finite_sum_nonneg win s :
  Forall special_or_nonneg win -> finite_sum win = Some s -> 0 <= s.
Proof.
  revert s; induction win as [|x win IH]; intros s Hall Hs; simpl in Hs.
  - injection Hs as <-. apply Qle_refl.
  - inversion Hall as [|? ? Hx Hrest]; subst.
    destruct x as [| | |q]; try discriminate.
    destruct (finite_sum win) as [t|] eqn:E; try discriminate.
    injection Hs as <-. simpl in Hx.
    specialize (IH t Hrest eq_refl). lra.
Qed.

Lemma inject_nat_pos w : (1 <= w)%nat -> 0 < inject_Z (Z.of_nat w).
Proof.
  intros Hw. unfold Qlt; simpl. lia.
Qed.

Lemma mean_of_nonneg w win :
  (1 <= w)%nat -> Forall special_or_nonneg win ->
  nan_or_nonneg (mean_of w win).
Proof.
  intros Hw Hall. unfold mean_of.
  destruct (finite_sum win) as [s|] eqn:E; simpl; auto.
  apply Qle_shift_div_l.
  - now apply inject_nat_pos.
  - pose proof (finite_sum_nonneg _ _ Hall E). lra.
Qed.

Lemma rolling_mean_nonneg w xs i :
  Forall special_or_nonneg xs -> (i < length xs)%nat ->
  nan_or_nonneg (nth i (rolling_mean w xs) NaN).
Proof.
  intros Hall Hi. rewrite nth_rolling_mean by assumption.
  destruct (1 <=? w)%nat eqn:E1; simpl; auto.
  destruct (w <=? i + 1)%nat; simpl; auto.
  apply mean_of_nonneg.
  - now apply Nat.leb_le.
  - now apply Forall_window.
Qed.

(** The last two lines of [calculate_rsi] on a ratio with a positive
    denominator. *)
Lemma rsi_of_ratio g l :
  0 <= g -> 0 < l ->
  rsi_of_rs (fdiv (Fin g) (Fin l)) = Fin (100 + - (100 / (1 + g / l))) /\
  0 <= 100 + - (100 / (1 + g / l)) /\
  100 + - (100 / (1 + g / l)) < 100.
Proof.
  intros Hg Hl.
  assert (Hr : 0 <= g / l).
  { apply Qle_shift_div_l; [assumption | lra]. }
  assert (Ht : 0 < 1 + g / l) by lra.
  assert (Hq : 0 < 100 / (1 + g / l)).
  { apply Qlt_shift_div_l; [assumption | lra]. }
  assert (Hq' : 100 / (1 + g / l) <= 100).
  { apply Qle_shift_div_r; [assumption | lra]. }
  split; [|split; lra].
  unfold rsi_of_rs, hundred, one; simpl.
  destruct (Qeq_bool l 0) eqn:El.
  { apply Qeq_bool_iff in El. lra. }
  simpl.
  destruct (Qeq_bool (1 + g / l) 0) eqn:Et.
  { apply Qeq_bool_iff in Et. lra. }
  reflexivity.
Qed.

(** ... and on a ratio whose denominator is zero. *)
Lemma rsi_of_ratio_zero_loss g l :
  l == 0 ->
  (0 < g -> rsi_of_rs (fdiv (Fin g) (Fin l)) = Fin (100 + - 0)) /\
  (g == 0 -> rsi_of_rs (fdiv (Fin g) (Fin l)) = NaN).
Proof.
  intros Hl. apply Qeq_bool_iff in Hl.
  unfold rsi_of_rs, hundred, one; simpl. rewrite Hl.
  unfold inf_signed. split; intros Hg.
  - apply Qgt_alt in Hg. rewrite Hg. reflexivity.
  - apply Qeq_alt in Hg. rewrite Hg. reflexivity.
Qed.


Lemma nth_calculate_rsi prices window i :
  (i < length prices)%nat ->
  nth i (calculate_rsi prices window) NaN =
    rsi_of_rs (fdiv (nth i (rsi_avg_gain prices window) NaN)
                    (nth i (rsi_avg_loss prices window) NaN)).
Proof.
  intros Hi. unfold calculate_rsi.
  assert (Hg : length (rsi_avg_gain prices window) = length prices).
  { unfold rsi_avg_gain. now rewrite length_rolling_mean, length_rsi_gain. }
  assert (Hl : length (rsi_avg_loss prices window) = length prices).
  { unfold rsi_avg_loss. now rewrite length_rolling_mean, length_rsi_loss. }
  rewrite (nth_map_in _ _ _ NaN).
  - rewrite nth_zip_with by lia. reflexivity.
  - rewrite length_zip_with. lia.
Qed.

Lemma nth_error_nth_in (l : Series) i x :
  nth_error l i = Some x -> (i < length l)%nat /\ nth i l NaN = x.
Proof.
  intros H. split.
  - apply nth_error_Some. congruence.
  - now apply nth_error_nth.
Qed.

End RsiFacts.


(** C10.  At an index where both rolling averages of [calculate_rsi] are
    numbers and the average loss is zero: a positive average gain gives an
    RSI of exactly 100, and a zero average gain gives NaN (not a neutral
    value such as 50). *)
Theorem rsi_zero_average_loss :
  forall (prices : Series) (window i : nat) (g l : Q),
    nth_error (rsi_avg_gain prices window) i = Some (Fin g) ->
    nth_error (rsi_avg_loss prices window) i = Some (Fin l) ->
    l == 0 ->
    (0 < g ->
     exists x, nth_error (calculate_rsi prices window) i = Some x /\
               x =f= Fin 100) /\
    (g == 0 -> nth_error (calculate_rsi prices window) i = Some NaN).
Proof.
  intros prices window i g l Hg Hl Hz.
  apply nth_error_nth_in in Hg as [Hi Hg].
  apply nth_error_nth_in in Hl as [_ Hl].
  unfold rsi_avg_gain in Hi.
  rewrite length_rolling_mean, length_rsi_gain in Hi.
  assert (Hrsi : nth_error (calculate_rsi prices window) i =
                 Some (rsi_of_rs (fdiv (Fin g) (Fin l)))).
  { rewrite (nth_error_nth' _ NaN) by now rewrite length_calculate_rsi.
    rewrite nth_calculate_rsi by assumption. now rewrite Hg, Hl. }
  destruct (rsi_of_ratio_zero_loss g l Hz) as [Hpos Hzero].
  split; intros Hgain.
  - exists (Fin (100 + - 0)). split.
    + now rewrite Hrsi, (Hpos Hgain).
    + simpl. lra.
  - now rewrite Hrsi, (Hzero Hgain).
Qed.

(* ------------------------------------------------------------------ *)
(** ** Series of numbers *)

Section FiniteSeries.

Lemma positive_price_finite x : positive_price x -> finite x.
Proof. destruct x; simpl; auto. Qed.

Lemma finite_series prices :
  Forall finite prices -> exists ps, prices = map Fin ps.
Proof.
  induction 1 as [|x xs Hx _ [ps ->]].
  - now exists [].
  - destruct x as [| | |q]; simpl in Hx; try contradiction.
    now exists (q :: ps).
Qed.

Lemma positive_series prices :
  Forall positive_price prices ->
  exists ps, prices = map Fin ps /\ Forall (fun q => 0 < q) ps.
Proof.
  induction 1 as [|x xs Hx _ (ps & -> & Hps)].
  - exists []. split; [reflexivity | constructor].
  - destruct x as [| | |q]; simpl in Hx; try contradiction.
    exists (q :: ps). split; [reflexivity | now constructor].
Qed.

Lemma finite_sum_fin l : finite_sum (map Fin l) = Some (qsum l).
Proof.
  induction l as [|q l IH]; simpl; [reflexivity|]. now rewrite IH.
Qed.









Lemma window_with_nan w l i :
  (1 <= w)%nat -> (i < w)%nat ->
  nth i (rolling_mean w (NaN :: l)) NaN = NaN.
Proof.
  intros Hw Hi.
  destruct (Nat.lt_ge_cases i (length (NaN :: l))) as [Hlen|Hlen].
  - rewrite nth_rolling_mean by assumption.
    destruct (w <=? i + 1)%nat eqn:E; [|now rewrite andb_false_r].
    apply Nat.leb_le in E. unfold window_at.
    replace (i + 1 - w)%nat with 0%nat by lia.
    destruct w as [|w]; [lia|]. rewrite andb_true_r.
    destruct (1 <=? S w)%nat; reflexivity.
  - apply nth_overflow. now rewrite length_rolling_mean.
Qed.

Lemma window_fin w ps i :
  window_at w (map Fin ps) i = map Fin (firstn w (skipn (i + 1 - w) ps)).
Proof.
  unfold window_at. now rewrite skipn_map, firstn_map.
Qed.

Lemma qsum_nonneg l : Forall (fun q => 0 <= q) l -> 0 <= qsum l.
Proof.
  induction 1 as [|q l Hq _ IH]; simpl; lra.
Qed.


Lemma qsum_pos l :
  l <> [] -> Forall (fun q => 0 < q) l -> 0 < qsum l.
Proof.
  intros Hne Hall. destruct Hall as [|q l Hq Hl]; [congruence|].
  simpl. assert (0 <= qsum l).
  { apply qsum_nonneg. eapply Forall_impl; [|exact Hl].
    intros a Ha. simpl in Ha. lra. }
  lra.
Qed.




End FiniteSeries.

(* ------------------------------------------------------------------ *)
(** ** Where the indicators are defined *)

Section Definedness.

Lemma fdiv_nan_r x : fdiv x NaN = NaN.
Proof. now destruct x. Qed.


Lemma rolling_fin w ps i :
  (1 <= w)%nat -> (w <= i + 1)%nat -> (i < length ps)%nat ->
  nth i (rolling_mean w (map Fin ps)) NaN =
    Fin (qsum (firstn w (skipn (i + 1 - w) ps)) / inject_Z (Z.of_nat w)).
Proof.
  intros Hw Hwi Hi.
  rewrite nth_rolling_mean by now rewrite length_map.
  replace (1 <=? w)%nat with true by (symmetry; now apply Nat.leb_le).
  replace (w <=? i + 1)%nat with true by (symmetry; now apply Nat.leb_le).
  simpl andb. cbv iota.
  rewrite window_fin. unfold mean_of. now rewrite finite_sum_fin.
Qed.

(** [calculate_rsi] is NaN on the first [window] entries of any series. *)
Lemma rsi_leading_nan prices window i :
  (i < window)%nat -> (i < length prices)%nat ->
  nth i (calculate_rsi prices window) NaN = NaN.
Proof.
  intros Hiw Hi. rewrite nth_calculate_rsi by assumption.
  destruct prices as [|p rest]; [simpl in Hi; lia|].
  unfold rsi_avg_gain, rsi_gain. simpl diff. simpl map.
  change (clip_lower zero NaN) with NaN.
  rewrite window_with_nan by lia. reflexivity.
Qed.







Lemma nth_fin ps k :
  (k < length ps)%nat -> nth k (map Fin ps) NaN = Fin (nth k ps 0).
Proof. intros Hk. now apply nth_map_in. Qed.


(** [simulate_mvrv]: NaN on the first 29 entries of any series ... *)
Lemma mvrv_leading_nan prices i :
  (i < 29)%nat -> (i < length prices)%nat ->
  nth i (simulate_mvrv prices) NaN = NaN.
Proof.
  intros H29 Hi. unfold simulate_mvrv.
  rewrite nth_zip_with by now rewrite ?length_rolling_mean.
  rewrite nth_rolling_mean by assumption.
  replace (30 <=? i + 1)%nat with false
    by (symmetry; apply Nat.leb_gt; lia).
  rewrite andb_false_r. apply fdiv_nan_r.
Qed.

(** ... and from then on the price over the mean of the last 30 prices. *)
Lemma mvrv_fin ps i :
  (29 <= i)%nat -> (i < length ps)%nat ->
  Forall (fun q => 0 < q) ps ->
  let m := qsum (firstn 30 (skipn (i + 1 - 30) ps)) / inject_Z (Z.of_nat 30) in
  0 < m /\
  nth i (simulate_mvrv (map Fin ps)) NaN = Fin (nth i ps 0 / m).
Proof.
  intros H29 Hi Hpos m.
  assert (Hwin : length (firstn 30 (skipn (i + 1 - 30) ps)) = 30%nat).
  { rewrite length_firstn, length_skipn. lia. }
  assert (Hm : 0 < m).
  { unfold m. apply Qlt_shift_div_l; [now apply inject_nat_pos; lia|].
    assert (0 < qsum (firstn 30 (skipn (i + 1 - 30) ps))); [|lra].
    apply qsum_pos.
    - intros E. rewrite E in Hwin. discriminate.
    - rewrite <- (firstn_skipn (i + 1 - 30) ps) in Hpos.
      apply Forall_app in Hpos as [_ Hpos].
      rewrite <- (firstn_skipn 30 (skipn (i + 1 - 30) ps)) in Hpos.
      now apply Forall_app in Hpos as [Hpos _]. }
  split; [exact Hm|].
  unfold simulate_mvrv.
  rewrite nth_zip_with by now rewrite ?length_rolling_mean, length_map.
  rewrite rolling_fin by lia. rewrite nth_fin by assumption.
  fold m. simpl.
  destruct (Qeq_bool m 0) eqn:E; [|reflexivity].
  apply Qeq_bool_iff in E. lra.
Qed.

End Definedness.

(* ------------------------------------------------------------------ *)
(** ** Exponential averages of numbers *)

Section EwmFacts.

Lemma ewm_step_fin alpha w p :
  ewm_step alpha (Fin w, 1) (Fin p) = (Fin (qewm_next alpha w p), 1).
Proof.
  unfold ewm_step, qewm_next, fneb; simpl.
  destruct (Qeq_bool w p); simpl; [reflexivity|].
  destruct (Qeq_bool (1 * (1 - alpha) + alpha) 0) eqn:E; [|reflexivity].
  apply Qeq_bool_iff in E. lra.
Qed.

Lemma ewm_loop_fin alpha w ps :
  ewm_loop alpha (Fin w, 1) (map Fin ps) = map Fin (qewm_loop alpha w ps).
Proof.
  revert w; induction ps as [|p ps IH]; intros w; [reflexivity|].
  cbn [map ewm_loop qewm_loop]. rewrite ewm_step_fin.
  cbn [fst]. now rewrite IH.
Qed.

Lemma ewm_mean_fin span ps :
  ewm_mean span (map Fin ps) = map Fin (qewm_mean span ps).
Proof.
  destruct ps as [|p ps]; [reflexivity|].
  cbn [map ewm_mean qewm_mean]. now rewrite ewm_loop_fin.
Qed.

Lemma zip_sub_fin xs ys :
  zip_with fsub (map Fin xs) (map Fin ys) = map Fin (qzip_sub xs ys).
Proof.
  revert ys; induction xs as [|x xs IH]; intros [|y ys]; simpl; auto.
  now rewrite IH.
Qed.

(** On numbers, MACD and its signal line are series of numbers. *)
Lemma calculate_macd_fin ps short long signal :
  calculate_macd (map Fin ps) short long signal =
    (map Fin (qzip_sub (qewm_mean short ps) (qewm_mean long ps)),
     map Fin (qewm_mean signal
                (qzip_sub (qewm_mean short ps) (qewm_mean long ps)))).
Proof.
  unfold calculate_macd.
  now rewrite !ewm_mean_fin, zip_sub_fin, ewm_mean_fin.
Qed.


(** A series whose entries all equal the running average is left alone. *)
Lemma qewm_loop_const alpha w ps :
  Forall (fun q => q == w) ps ->
  qewm_loop alpha w ps = repeat w (length ps).
Proof.
  induction 1 as [|p ps Hp _ IH]; [reflexivity|].
  cbn [qewm_loop length repeat]. unfold qewm_next.
  assert (E : Qeq_bool w p = true) by (apply Qeq_bool_iff; lra).
  rewrite E. now rewrite IH.
Qed.

Lemma qewm_mean_const span c ps :
  Forall (fun q => q == c) ps ->
  qewm_mean span ps = repeat (hd 0 ps) (length ps).
Proof.
  intros Hall. destruct ps as [|p ps]; [reflexivity|].
  inversion Hall as [|? ? Hp Hps]; subst.
  cbn [qewm_mean hd length repeat]. f_equal.
  apply qewm_loop_const. eapply Forall_impl; [|exact Hps].
  intros q Hq. simpl in Hq. lra.
Qed.

Lemma qewm_mean_repeat span d n :
  qewm_mean span (repeat d n) = repeat d n.
Proof.
  destruct n as [|n]; [reflexivity|].
  cbn [repeat qewm_mean]. f_equal.
  rewrite qewm_loop_const.
  - now rewrite repeat_length.
  - apply Forall_forall. intros q Hq. apply repeat_spec in Hq. subst.
    reflexivity.
Qed.

Lemma qzip_sub_repeat a b n :
  qzip_sub (repeat a n) (repeat b n) = repeat (a + - b) n.
Proof.
  induction n as [|n IH]; simpl; [reflexivity|]. now rewrite IH.
Qed.

Lemma constant_series prices c :
  Forall (fun x => x =f= Fin c) prices ->
  exists ps, prices = map Fin ps /\ Forall (fun q => q == c) ps.
Proof.
  induction 1 as [|x xs Hx _ (ps & -> & Hps)].
  - exists []. split; [reflexivity | constructor].
  - destruct x as [| | |q]; simpl in Hx; try contradiction.
    exists (q :: ps). split; [reflexivity | now constructor].
Qed.

Lemma qsum_const c l :
  Forall (fun q => q == c) l ->
  qsum l == inject_Z (Z.of_nat (length l)) * c.
Proof.
  induction 1 as [|q l Hq _ IH].
  - simpl. ring.
  - cbn [qsum length]. rewrite IH, Hq, Nat2Z.inj_succ.
    unfold Z.succ. rewrite inject_Z_plus. ring.
Qed.

End EwmFacts.

(** C5.  In [calculate_macd] both exponential averages start at the first
    price, and the signal line starts at the first MACD value (the seeding
    rule of [ewm(adjust=False)]); on a constant price series of a positive
    price, MACD and Signal are 0 at every index. *)
Theorem macd_seed_and_constant :
  (forall prices : Series,
      nth 0 (ewm_mean 12 prices) NaN = nth 0 prices NaN /\
      nth 0 (ewm_mean 26 prices) NaN = nth 0 prices NaN /\
      nth 0 (snd (calculate_macd prices 12 26 9)) NaN =
        nth 0 (fst (calculate_macd prices 12 26 9)) NaN) /\
  (forall (prices : Series) (c : Q) (i : nat),
      0 < c ->
      Forall (fun x => x =f= Fin c) prices ->
      (i < length prices)%nat ->
      nth i (fst (calculate_macd prices 12 26 9)) NaN =f= Fin 0 /\
      nth i (snd (calculate_macd prices 12 26 9)) NaN =f= Fin 0).
Proof.
  split.
  - intros [|p rest]; repeat split; reflexivity.
  - intros prices c i Hc Hall Hi.
    destruct (constant_series prices c Hall) as (ps & -> & Hps).
    rewrite length_map in Hi.
    rewrite calculate_macd_fin. cbn [fst snd].
    rewrite !(qewm_mean_const _ c ps Hps), qzip_sub_repeat, qewm_mean_repeat.
    rewrite !nth_fin by now rewrite repeat_length.
    rewrite nth_repeat_lt by assumption.
    cbv [feq]. split; ring.
Qed.

(** C6.  On a constant price series of a positive price, [simulate_mvrv]
    is NaN up to index 28 (window not yet filled) and 1 at every index from
    29 on; so it is 1 wherever it is defined. *)
Theorem mvrv_constant_is_one :
  forall (prices : Series) (c : Q) (i : nat),
    0 < c ->
    Forall (fun x => x =f= Fin c) prices ->
    (i < length prices)%nat ->
    ((i < 29)%nat -> nth i (simulate_mvrv prices) NaN = NaN) /\
    ((29 <= i)%nat -> nth i (simulate_mvrv prices) NaN =f= Fin 1) /\
    (nth i (simulate_mvrv prices) NaN <> NaN ->
     nth i (simulate_mvrv prices) NaN =f= Fin 1).
Proof.
  intros prices c i Hc Hall Hi.
  assert (Hlead : (i < 29)%nat -> nth i (simulate_mvrv prices) NaN = NaN).
  { intros H29. now apply mvrv_leading_nan. }
  assert (Hone : (29 <= i)%nat -> nth i (simulate_mvrv prices) NaN =f= Fin 1).
  { intros H29.
    destruct (constant_series prices c Hall) as (ps & -> & Hps).
    rewrite length_map in Hi.
    assert (Hpos : Forall (fun q => 0 < q) ps).
    { eapply Forall_impl; [|exact Hps]. intros q Hq. simpl in Hq. lra. }
    destruct (mvrv_fin ps i H29 Hi Hpos) as [Hm ->].
    set (win := firstn 30 (skipn (i + 1 - 30) ps)) in *.
    assert (Hwin : length win = 30%nat).
    { unfold win. rewrite length_firstn, length_skipn. lia. }
    assert (Hwc : Forall (fun q => q == c) win).
    { unfold win.
      rewrite <- (firstn_skipn (i + 1 - 30) ps) in Hps.
      apply Forall_app in Hps as [_ Hps].
      rewrite <- (firstn_skipn 30 (skipn (i + 1 - 30) ps)) in Hps.
      now apply Forall_app in Hps as [Hps _]. }
    assert (Hpi : nth i ps 0 == c).
    { rewrite Forall_forall in Hps. apply Hps. now apply nth_In. }
    pose proof (qsum_const c win Hwc) as Hsum. rewrite Hwin in Hsum.
    cbv [feq]. rewrite Hpi, Hsum. field. lra. }
  split; [exact Hlead|]. split; [exact Hone|].
  intros Hdef. destruct (Nat.lt_ge_cases i 29) as [Hlt|Hge].
  - now rewrite Hlead in Hdef.
  - now apply Hone.
Qed.



(* ------------------------------------------------------------------ *)
(** ** The report *)

Section ReportFacts.

Lemma flt_fin a b : flt (Fin a) (Fin b) = true <-> a < b.
Proof.
  simpl. destruct (Qle_bool b a) eqn:E; simpl.
  - apply Qle_bool_iff in E. split; [discriminate | lra].
  - apply Qle_bool_false in E. tauto.
Qed.

Lemma flt_fin_false a b : flt (Fin a) (Fin b) = false <-> b <= a.
Proof.
  simpl. destruct (Qle_bool b a) eqn:E; simpl.
  - apply Qle_bool_iff in E. tauto.
  - apply Qle_bool_false in E. split; [discriminate | lra].
Qed.

Lemma string_app_assoc (a b c : string) :
  ((a ++ b) ++ c = a ++ (b ++ c))%string.
Proof.
  induction a as [|x a IH]; simpl; [reflexivity|]. now rewrite IH.
Qed.

Lemma string_app_nil_r (a : string) : (a ++ "" = a)%string.
Proof.
  induction a as [|x a IH]; simpl; [reflexivity|]. now rewrite IH.
Qed.

(** The three lines of the report that carry an indicator and its class. *)
Lemma report_rsi_line asset latest :
  contains ("RSI: " ++ format_2f (row_RSI latest) ++ " → "
              ++ rsi_zone latest)%string
           (report_text asset latest).
Proof.
  exists ("📊 " ++ asset ++ " Valuation Report ("
            ++ str_date (row_Date latest) ++ "):" ++ nl
            ++ "Price: $" ++ format_2f (row_Price latest) ++ nl)%string.
  exists (nl ++ "MACD: " ++ format_2f (row_MACD latest) ++ ", Signal: "
            ++ format_2f (row_Signal latest) ++ " → "
            ++ macd_trend latest ++ nl
            ++ "MVRV: " ++ format_2f (row_MVRV latest) ++ " → "
            ++ mvrv_valuation latest)%string.
  unfold report_text. rewrite !string_app_assoc. reflexivity.
Qed.

Lemma report_macd_line asset latest :
  contains ("MACD: " ++ format_2f (row_MACD latest) ++ ", Signal: "
              ++ format_2f (row_Signal latest) ++ " → "
              ++ macd_trend latest)%string
           (report_text asset latest).
Proof.
  exists ("📊 " ++ asset ++ " Valuation Report ("
            ++ str_date (row_Date latest) ++ "):" ++ nl
            ++ "Price: $" ++ format_2f (row_Price latest) ++ nl
            ++ "RSI: " ++ format_2f (row_RSI latest) ++ " → "
            ++ rsi_zone latest ++ nl)%string.
  exists (nl ++ "MVRV: " ++ format_2f (row_MVRV latest) ++ " → "
            ++ mvrv_valuation latest)%string.
  unfold report_text. rewrite !string_app_assoc. reflexivity.
Qed.

Lemma report_mvrv_line asset latest :
  contains ("MVRV: " ++ format_2f (row_MVRV latest) ++ " → "
              ++ mvrv_valuation latest)%string
           (report_text asset latest).
Proof.
  exists ("📊 " ++ asset ++ " Valuation Report ("
            ++ str_date (row_Date latest) ++ "):" ++ nl
            ++ "Price: $" ++ format_2f (row_Price latest) ++ nl
            ++ "RSI: " ++ format_2f (row_RSI latest) ++ " → "
            ++ rsi_zone latest ++ nl
            ++ "MACD: " ++ format_2f (row_MACD latest) ++ ", Signal: "
            ++ format_2f (row_Signal latest) ++ " → "
            ++ macd_trend latest ++ nl)%string.
  exists EmptyString.
  unfold report_text. rewrite !string_app_assoc, string_app_nil_r.
  reflexivity.
Qed.

(** Rounding to hundredths of a whole number of hundredths. *)
Lemma round_half_even_exact (r : Q) (c : Z) :
  (0 <= c)%Z -> r == inject_Z c / 100 ->
  round_half_even (Qabs r * 100) = c.
Proof.
  intros Hc Hr. destruct r as [n d].
  assert (Hn : (n * 100 = c * Zpos d)%Z).
  { unfold Qeq, Qdiv, Qmult, Qinv, inject_Z in Hr.
    cbn [Qnum Qden] in Hr. rewrite ?Pos2Z.inj_mul in Hr. lia. }
  assert (Hn0 : (0 <= n)%Z) by nia.
  unfold round_half_even, Qabs, Qmult. cbn [Qnum Qden].
  rewrite Z.abs_eq by lia.
  replace (Zpos (d * 1)) with (Zpos d) by (now rewrite Pos.mul_1_r).
  rewrite Hn, Z.div_mul, Z.mod_mul by lia.
  reflexivity.
Qed.

Lemma format_2f_thirty r : r == 30 -> format_2f (Fin r) = "30.00"%string.
Proof.
  intros Hr. cbn [format_2f].
  rewrite (round_half_even_exact r 3000);
    [|lia | rewrite Hr; reflexivity].
  assert (E : Qle_bool 0 r = true) by (apply Qle_bool_iff; lra).
  rewrite E. reflexivity.
Qed.

Lemma format_2f_one v : v == 1 -> format_2f (Fin v) = "1.00"%string.
Proof.
  intros Hv. cbn [format_2f].
  rewrite (round_half_even_exact v 100);
    [|lia | rewrite Hv; reflexivity].
  assert (E : Qle_bool 0 v = true) by (apply Qle_bool_iff; lra).
  rewrite E. reflexivity.
Qed.

End ReportFacts.

(** C7.  The three classifications of the report are decided on each
    indicator of the latest row by itself, whatever the other indicators
    are (numbers or NaN), and are printed in the report next to the
    value.  The zone is "Oversold" when RSI < 30 and "Neutral/Bullish"
    otherwise, so at RSI = 30, where the report reads
    "RSI: 30.00 → Neutral/Bullish"; the trend is "Bullish" when
    MACD > Signal and "Bearish" otherwise, so at MACD = Signal; the
    valuation is "Undervalued" when MVRV < 1 and "Fairly Valued" otherwise,
    so at MVRV = 1, where the report reads "MVRV: 1.00 → Fairly Valued". *)
Theorem classification_tie_breaks :
  forall (asset : string) (latest : Row),
    (forall r, row_RSI latest = Fin r ->
       (r < 30 -> rsi_zone latest = "Oversold"%string) /\
       (30 <= r -> rsi_zone latest = "Neutral/Bullish"%string) /\
       (r == 30 ->
        contains "RSI: 30.00 → Neutral/Bullish" (report_text asset latest))) /\
    (forall m s, row_MACD latest = Fin m -> row_Signal latest = Fin s ->
       (s < m -> macd_trend latest = "Bullish"%string) /\
       (m <= s -> macd_trend latest = "Bearish"%string) /\
       (m == s ->
        contains ("MACD: " ++ format_2f (Fin m) ++ ", Signal: "
                    ++ format_2f (Fin s) ++ " → Bearish")%string
                 (report_text asset latest))) /\
    (forall v, row_MVRV latest = Fin v ->
       (v < 1 -> mvrv_valuation latest = "Undervalued"%string) /\
       (1 <= v -> mvrv_valuation latest = "Fairly Valued"%string) /\
       (v == 1 ->
        contains "MVRV: 1.00 → Fairly Valued" (report_text asset latest))) /\
    contains ("RSI: " ++ format_2f (row_RSI latest) ++ " → "
                ++ rsi_zone latest)%string
             (report_text asset latest) /\
    contains ("MACD: " ++ format_2f (row_MACD latest) ++ ", Signal: "
                ++ format_2f (row_Signal latest) ++ " → "
                ++ macd_trend latest)%string
             (report_text asset latest) /\
    contains ("MVRV: " ++ format_2f (row_MVRV latest) ++ " → "
                ++ mvrv_valuation latest)%string
             (report_text asset latest).
Proof.
  intros asset latest.
  pose proof (report_rsi_line asset latest) as Lrsi.
  pose proof (report_macd_line asset latest) as Lmacd.
  pose proof (report_mvrv_line asset latest) as Lmvrv.
  split; [|split; [|split; [|split; [exact Lrsi|split; assumption]]]].
  - intros r Hr.
    assert (Hlow : r < 30 -> rsi_zone latest = "Oversold"%string).
    { intros H. unfold rsi_zone. rewrite Hr.
      apply flt_fin in H. now rewrite H. }
    assert (Hhigh : 30 <= r -> rsi_zone latest = "Neutral/Bullish"%string).
    { intros H. unfold rsi_zone. rewrite Hr.
      apply flt_fin_false in H. now rewrite H. }
    split; [exact Hlow|]. split; [exact Hhigh|].
    intros Htie.
    rewrite Hhigh in Lrsi by lra.
    rewrite Hr, (format_2f_thirty r Htie) in Lrsi. exact Lrsi.
  - intros m s Hm Hs.
    assert (Hup : s < m -> macd_trend latest = "Bullish"%string).
    { intros H. unfold macd_trend, fgt. rewrite Hm, Hs.
      apply flt_fin in H. now rewrite H. }
    assert (Hdown : m <= s -> macd_trend latest = "Bearish"%string).
    { intros H. unfold macd_trend, fgt. rewrite Hm, Hs.
      apply flt_fin_false in H. now rewrite H. }
    split; [exact Hup|]. split; [exact Hdown|].
    intros Htie.
    rewrite Hdown in Lmacd by lra.
    rewrite Hm, Hs in Lmacd. exact Lmacd.
  - intros v Hv.
    assert (Hlow : v < 1 -> mvrv_valuation latest = "Undervalued"%string).
    { intros H. unfold mvrv_valuation. rewrite Hv.
      apply flt_fin in H. now rewrite H. }
    assert (Hhigh : 1 <= v ->
                    mvrv_valuation latest = "Fairly Valued"%string).
    { intros H. unfold mvrv_valuation. rewrite Hv.
      apply flt_fin_false in H. now rewrite H. }
    split; [exact Hlow|]. split; [exact Hhigh|].
    intros Htie.
    rewrite Hhigh in Lmvrv by lra.
    rewrite Hv, (format_2f_one v Htie) in Lmvrv. exact Lmvrv.
Qed.

(* ------------------------------------------------------------------ *)
(** ** Runs of the script *)

Section ScriptFacts.

Variable env : Env.

Lemma extends_refl w : extends w w.
Proof.
  repeat split; exists []; now rewrite app_nil_r.
Qed.

Lemma extends_trans w1 w2 w3 : extends w1 w2 -> extends w2 w3 -> extends w1 w3.
Proof.
  intros ([c1 H1] & [o1 H2] & [f1 H3]) ([c2 H4] & [o2 H5] & [f2 H6]).
  repeat split.
  - exists (c1 ++ c2). now rewrite H4, H1, app_assoc.
  - exists (o1 ++ o2). now rewrite H5, H2, app_assoc.
  - exists (f1 ++ f2). now rewrite H6, H3, app_assoc.
Qed.

Lemma extends_console w w' line :
  extends w w' -> In line (console w) -> In line (console w').
Proof.
  intros ([c ->] & _) Hin. apply in_or_app. now left.
Qed.

Lemma extends_outbox w w' mail :
  extends w w' -> In mail (outbox w) -> In mail (outbox w').
Proof.
  intros (_ & [o ->] & _) Hin. apply in_or_app. now left.
Qed.

Lemma print_extends line w : extends w (snd (print line w)).
Proof.
  repeat split; simpl;
    [now exists [line] | exists [] | exists []]; now rewrite app_nil_r.
Qed.

(** [send_alert] returns normally whatever the mail server does. *)
Lemma send_alert_run subject body w :
  send_alert env subject body w =
    (inr tt,
     match smtp_send env subject body with
     | None =>
         mkWorld (console w ++ ["✅ Gmail alert sent."%string])
                 (outbox w ++ [(subject, body)]) (charts w)
     | Some e =>
         mkWorld (console w
                    ++ [("⚠️ Gmail alert failed: " ++ str_exn e)%string])
                 (outbox w) (charts w)
     end).
Proof.
  unfold send_alert, try_except, bind, raise, print.
  destruct (smtp_send env subject body); reflexivity.
Qed.

Lemma send_alert_extends subject body w :
  extends w (snd (send_alert env subject body w)).
Proof.
  rewrite send_alert_run. cbn [snd].
  destruct (smtp_send env subject body); repeat split; simpl;
    eauto; try (exists []; now rewrite app_nil_r).
Qed.

(** [generate_report] on a frame with a last row. *)
Lemma generate_report_run asset df latest w :
  iloc_last df = inr latest ->
  generate_report env asset df w =
    send_alert env (alert_subject asset) (report_text asset latest)
      (mkWorld (console w ++ [report_text asset latest])
               (outbox w) (charts w)).
Proof.
  intros Hlast. unfold generate_report, bind, lift. rewrite Hlast.
  reflexivity.
Qed.

Lemma generate_report_ok asset df latest w :
  iloc_last df = inr latest ->
  let out := generate_report env asset df w in
  fst out = inr tt /\
  extends w (snd out) /\
  In (report_text asset latest) (console (snd out)) /\
  (smtp_send env (alert_subject asset) (report_text asset latest) = None ->
   In (alert_subject asset, report_text asset latest) (outbox (snd out))).
Proof.
  intros Hlast out. unfold out.
  rewrite (generate_report_run asset df latest w Hlast).
  set (w1 := mkWorld (console w ++ [report_text asset latest])
                     (outbox w) (charts w)).
  assert (H01 : extends w w1).
  { repeat split; simpl; eauto; exists []; now rewrite app_nil_r. }
  pose proof (send_alert_extends (alert_subject asset)
                (report_text asset latest) w1) as H12.
  split; [now rewrite send_alert_run|].
  split; [eapply extends_trans; eassumption|].
  split.
  - eapply extends_console; [exact H12|].
    simpl. apply in_or_app. right. now left.
  - intros Hsmtp. rewrite send_alert_run, Hsmtp. cbn [snd outbox].
    apply in_or_app. right. now left.
Qed.

(** [generate_report] on a frame without rows. *)
Lemma generate_report_empty asset df w :
  Date df = [] ->
  generate_report env asset df w =
    (inl (IndexError "single positional indexer is out-of-bounds"), w).
Proof.
  intros Hdate. unfold generate_report, bind, lift, iloc_last.
  now rewrite Hdate.
Qed.

Lemma plot_indicators_extends df asset w :
  extends w (snd (plot_indicators env df asset w)).
Proof.
  unfold plot_indicators. destruct (savefig env asset df); simpl.
  - apply extends_refl.
  - repeat split; simpl; eauto; exists []; now rewrite app_nil_r.
Qed.

(** A turn whose own steps all succeed prints (and mails) its report. *)
Lemma process_asset_success asset fetch_func fetched price latest w :
  fetch_func = inr fetched ->
  getitem_Price fetched = inr price ->
  savefig env asset (with_indicators fetched price) = None ->
  iloc_last (with_indicators fetched price) = inr latest ->
  let out := process_asset env (asset, fetch_func) w in
  In (report_text asset latest) (console (snd out)) /\
  In (lower asset ++ "_chart.png")%string (charts (snd out)) /\
  (smtp_send env (alert_subject asset) (report_text asset latest) = None ->
   In (alert_subject asset, report_text asset latest) (outbox (snd out))).
Proof.
  intros Hf Hp Hplot Hlast out. unfold out.
  unfold process_asset, try_except, pipeline, bind, lift, plot_indicators.
  rewrite Hf. cbn [ret]. rewrite Hp. cbn [ret]. rewrite Hplot.
  set (w1 := mkWorld (console w) (outbox w)
                     (charts w ++ [(lower asset ++ "_chart.png")%string])).
  destruct (generate_report_ok asset (with_indicators fetched price)
              latest w1 Hlast) as (Hok & Hext & Hcon & Hmail).
  destruct (generate_report env asset (with_indicators fetched price) w1)
    as [[e|[]] w2] eqn:E; cbn [fst snd] in *; [discriminate|].
  split; [exact Hcon|]. split; [|exact Hmail].
  destruct Hext as (_ & _ & [f ->]). simpl.
  apply in_or_app. left. apply in_or_app. right. now left.
Qed.

(** A turn one of whose steps raises prints the warning for its asset. *)
Lemma process_asset_failure asset fetch_func e w :
  fst (pipeline env asset fetch_func w) = inl e ->
  In (error_line asset e)
     (console (snd (process_asset env (asset, fetch_func) w))).
Proof.
  intros Hfail. unfold process_asset, try_except.
  destruct (pipeline env asset fetch_func w) as [[e'|[]] w1];
    cbn [fst] in Hfail; [|discriminate].
  injection Hfail as ->. simpl. apply in_or_app. right. now left.
Qed.

Lemma pipeline_extends asset fetch_func w :
  extends w (snd (pipeline env asset fetch_func w)).
Proof.
  unfold pipeline, bind, lift.
  destruct fetch_func as [e|fetched]; [apply extends_refl|]. cbn [ret raise].
  destruct (getitem_Price fetched) as [e|price]; [apply extends_refl|].
  cbn [ret raise].
  pose proof (plot_indicators_extends (with_indicators fetched price)
                asset w) as H1.
  destruct (plot_indicators env (with_indicators fetched price) asset w)
    as [[e|[]] w1]; cbn [snd] in *; [exact H1|].
  eapply extends_trans; [exact H1|].
  unfold generate_report, bind, lift.
  destruct (iloc_last (with_indicators fetched price)) as [e|latest];
    [apply extends_refl|]. cbn [ret].
  eapply extends_trans; [apply print_extends|].
  cbn [print fst snd]. apply send_alert_extends.
Qed.

(** Whether the body of the [try] raises does not depend on what was
    printed, mailed or drawn before. *)
Lemma pipeline_outcome asset fetch_func w1 w2 :
  fst (pipeline env asset fetch_func w1) =
  fst (pipeline env asset fetch_func w2).
Proof.
  unfold pipeline, bind, lift, plot_indicators.
  destruct fetch_func as [e|fetched]; [reflexivity|]. cbn [ret raise].
  destruct (getitem_Price fetched) as [e|price]; [reflexivity|].
  cbn [ret raise].
  destruct (savefig env asset (with_indicators fetched price));
    [reflexivity|].
  unfold generate_report, bind, lift.
  destruct (iloc_last (with_indicators fetched price)) as [e|latest];
    [reflexivity|]. cbn [ret print].
  now rewrite !send_alert_run.
Qed.

(** No turn of the loop raises. *)
Lemma process_asset_returns entry w :
  fst (process_asset env entry w) = inr tt /\
  extends w (snd (process_asset env entry w)).
Proof.
  destruct entry as [asset fetch_func].
  unfold process_asset, try_except.
  pose proof (pipeline_extends asset fetch_func w) as Hext.
  destruct (pipeline env asset fetch_func w) as [[e|[]] w1];
    cbn [snd] in Hext.
  - split; [reflexivity|].
    eapply extends_trans; [exact Hext | apply print_extends].
  - split; [reflexivity | exact Hext].
Qed.

Lemma for_each_cons entry rest w :
  for_each env (entry :: rest) w =
  for_each env rest (snd (process_asset env entry w)).
Proof.
  cbn [for_each]. unfold bind.
  destruct (process_asset_returns entry w) as [Hok _].
  destruct (process_asset env entry w) as [[e|[]] w1];
    cbn [fst snd] in *; [discriminate | reflexivity].
Qed.

Lemma for_each_returns items w :
  fst (for_each env items w) = inr tt /\
  extends w (snd (for_each env items w)).
Proof.
  revert w; induction items as [|entry rest IH]; intros w.
  - split; [reflexivity | apply extends_refl].
  - rewrite for_each_cons.
    destruct (IH (snd (process_asset env entry w))) as [Hok Hext].
    split; [exact Hok|].
    eapply extends_trans; [|exact Hext].
    apply process_asset_returns.
Qed.

(** What a turn contributes to the world stays to the end of the loop. *)
Lemma for_each_keeps items asset fetch_func w (P : World -> Prop) :
  (forall w1 w2, extends w1 w2 -> P w1 -> P w2) ->
  (forall w0, P (snd (process_asset env (asset, fetch_func) w0))) ->
  In (asset, fetch_func) items ->
  P (snd (for_each env items w)).
Proof.
  intros Hmono Hturn.
  revert w; induction items as [|entry rest IH]; intros w Hin;
    [contradiction|].
  rewrite for_each_cons. destruct Hin as [->|Hin].
  - eapply Hmono; [apply for_each_returns | apply Hturn].
  - now apply IH.
Qed.

End ScriptFacts.

(** C8.  The loop of [main.py] never raises, and every configured asset is
    handled on its own: if its fetch returns a frame with a [Price] column
    and at least one row and its chart is saved, then its report is on the
    console at the end of the run (and in the mail box when the mail server
    accepts it), whatever happened to the other assets; and if one of its
    steps raises [e], the warning naming the asset and [e] is on the
    console. *)
Theorem main_isolates_assets :
  forall (env : Env) (w : World),
    fst (main env w) = inr tt /\
    forall (asset : string) (fetch_func : exn + Fetched),
      In (asset, fetch_func) (assets env) ->
      (forall fetched price latest,
          fetch_func = inr fetched ->
          getitem_Price fetched = inr price ->
          savefig env asset (with_indicators fetched price) = None ->
          iloc_last (with_indicators fetched price) = inr latest ->
          In (report_text asset latest) (console (snd (main env w))) /\
          (smtp_send env (alert_subject asset) (report_text asset latest)
             = None ->
           In (alert_subject asset, report_text asset latest)
              (outbox (snd (main env w))))) /\
      (forall e w0,
          fst (pipeline env asset fetch_func w0) = inl e ->
          In (error_line asset e) (console (snd (main env w)))).
Proof.
  intros env w. unfold main.
  split; [apply for_each_returns|].
  intros asset fetch_func Hin. split.
  - intros fetched price latest Hf Hp Hplot Hlast. split.
    + apply (for_each_keeps env (assets env) asset fetch_func w
               (fun w' => In (report_text asset latest) (console w')));
        [| |exact Hin].
      * intros w1 w2 Hext. now apply extends_console.
      * intros w0.
        now apply (process_asset_success env asset fetch_func fetched price
                     latest w0).
    + intros Hsmtp.
      apply (for_each_keeps env (assets env) asset fetch_func w
               (fun w' => In (alert_subject asset, report_text asset latest)
                             (outbox w')));
        [| |exact Hin].
      * intros w1 w2 Hext. now apply extends_outbox.
      * intros w1.
        now apply (process_asset_success env asset fetch_func fetched price
                     latest w1).
  - intros e w0 Hfail.
    apply (for_each_keeps env (assets env) asset fetch_func w
             (fun w' => In (error_line asset e) (console w')));
      [| |exact Hin].
    + intros w1 w2 Hext. now apply extends_console.
    + intros w1. apply process_asset_failure.
      now rewrite (pipeline_outcome env asset fetch_func w1 w0).
Qed.

(* ------------------------------------------------------------------ *)
(** ** Reports on short histories *)

Section ShortHistory.

Lemma rev_nonempty {A} (l : list A) : l <> [] -> rev l <> [].
Proof.
  intros Hne Hrev. apply Hne.
  rewrite <- (rev_involutive l), Hrev. reflexivity.
Qed.

Lemma with_indicators_columns fetched price :
  Date (with_indicators fetched price) = getitem_Date fetched /\
  RSI (with_indicators fetched price) = calculate_rsi price 14 /\
  MVRV (with_indicators fetched price) = simulate_mvrv price.
Proof. repeat split. Qed.

Lemma iloc_last_rows rows :
  rows <> [] ->
  exists latest,
    iloc_last (with_indicators (Rows rows) (map snd rows)) = inr latest /\
    row_RSI latest =
      nth (length rows - 1) (calculate_rsi (map snd rows) 14) NaN /\
    row_MVRV latest =
      nth (length rows - 1) (simulate_mvrv (map snd rows)) NaN.
Proof.
  intros Hne. unfold iloc_last.
  destruct (with_indicators_columns (Rows rows) (map snd rows))
    as (HD & HR & HM).
  rewrite HD, HR, HM. cbn [getitem_Date].
  destruct (rev (map fst rows)) as [|d rest] eqn:E.
  - exfalso. apply (rev_nonempty (map fst rows)); [|exact E].
    destruct rows; [congruence | discriminate].
  - eexists. split; [reflexivity|]. cbn [row_RSI row_MVRV].
    now rewrite length_map.
Qed.

End ShortHistory.

(** C1, as amended.  [generate_report] does not check the history: on a
    frame with at least one row it returns normally, prints the report of
    the last row and mails it; the mail is in the mail box when the server
    accepts it, and when the server refuses a failure line is printed
    instead.  When fewer than 30 prices were fetched the MVRV of that row is
    NaN, and when fewer than 15 its RSI is NaN.  A NaN indicator is printed
    in the report as "nan" and classified by the else-branch
    ("Neutral/Bullish", "Bearish", "Fairly Valued").  Only the frame
    without rows fails, with the IndexError of [df.iloc[-1]]. *)
Theorem generate_report_ignores_history :
  forall (env : Env) (asset : string) (rows : list (date * float64))
         (w : World),
    let df := with_indicators (Rows rows) (map snd rows) in
    (rows = [] ->
     generate_report env asset df w =
       (inl (IndexError "single positional indexer is out-of-bounds"), w)) /\
    (rows <> [] ->
     exists latest,
       iloc_last df = inr latest /\
       fst (generate_report env asset df w) = inr tt /\
       In (report_text asset latest)
          (console (snd (generate_report env asset df w))) /\
       ((length rows < 30)%nat -> row_MVRV latest = NaN) /\
       ((length rows < 15)%nat -> row_RSI latest = NaN) /\
       (smtp_send env (alert_subject asset) (report_text asset latest)
          = None ->
        generate_report env asset df w =
          (inr tt,
           mkWorld (console w ++ [report_text asset latest; mail_sent_line])
                   (outbox w
                      ++ [(alert_subject asset, report_text asset latest)])
                   (charts w))) /\
       (forall e,
           smtp_send env (alert_subject asset) (report_text asset latest)
             = Some e ->
           generate_report env asset df w =
             (inr tt,
              mkWorld (console w
                         ++ [report_text asset latest; mail_failed_line e])
                      (outbox w) (charts w)))) /\
    (forall latest : Row,
        (row_RSI latest = NaN ->
         format_2f (row_RSI latest) = "nan"%string /\
         rsi_zone latest = "Neutral/Bullish"%string /\
         contains "RSI: nan → Neutral/Bullish" (report_text asset latest)) /\
        (row_MACD latest = NaN \/ row_Signal latest = NaN ->
         macd_trend latest = "Bearish"%string) /\
        (row_MACD latest = NaN ->
         contains ("MACD: nan, Signal: " ++ format_2f (row_Signal latest)
                     ++ " → Bearish")%string
                  (report_text asset latest)) /\
        (row_Signal latest = NaN ->
         contains ("MACD: " ++ format_2f (row_MACD latest)
                     ++ ", Signal: nan → Bearish")%string
                  (report_text asset latest)) /\
        (row_MVRV latest = NaN ->
         format_2f (row_MVRV latest) = "nan"%string /\
         mvrv_valuation latest = "Fairly Valued"%string /\
         contains "MVRV: nan → Fairly Valued" (report_text asset latest))).
Proof.
  intros env asset rows w df. split; [|split].
  - intros ->. now apply generate_report_empty.
  - intros Hne.
    destruct (iloc_last_rows rows Hne) as (latest & Hlast & Hrsi & Hmvrv).
    exists latest. fold df in Hlast.
    destruct (generate_report_ok env asset df latest w Hlast)
      as (Hok & _ & Hcon & _).
    assert (Hlen : (0 < length rows)%nat).
    { destruct rows; [congruence | simpl; lia]. }
    split; [exact Hlast|]. split; [exact Hok|]. split; [exact Hcon|].
    split; [|split; [|split]].
    + intros H30. rewrite Hmvrv.
      apply mvrv_leading_nan; rewrite ?length_map; lia.
    + intros H15. rewrite Hrsi.
      apply rsi_leading_nan; rewrite ?length_map; lia.
    + intros Hsmtp.
      rewrite (generate_report_run env asset df latest w Hlast).
      rewrite send_alert_run, Hsmtp. cbn [console outbox charts].
      now rewrite <- app_assoc.
    + intros e Hsmtp.
      rewrite (generate_report_run env asset df latest w Hlast).
      rewrite send_alert_run, Hsmtp. cbn [console outbox charts].
      now rewrite <- app_assoc.
  - intros latest.
    pose proof (report_rsi_line asset latest) as Lrsi.
    pose proof (report_macd_line asset latest) as Lmacd.
    pose proof (report_mvrv_line asset latest) as Lmvrv.
    assert (Hbear : row_MACD latest = NaN \/ row_Signal latest = NaN ->
                    macd_trend latest = "Bearish"%string).
    { unfold macd_trend, fgt. intros [-> | ->]; [|reflexivity].
      now destruct (row_Signal latest). }
    split; [|split; [exact Hbear|split; [|split]]].
    + intros H. unfold rsi_zone in *. rewrite H in *.
      split; [reflexivity|]. split; [reflexivity | exact Lrsi].
    + intros H. rewrite Hbear in Lmacd by now left.
      rewrite H in Lmacd. exact Lmacd.
    + intros H. rewrite Hbear in Lmacd by now right.
      rewrite H in Lmacd. exact Lmacd.
    + intros H. unfold mvrv_valuation in *. rewrite H in *.
      split; [reflexivity|]. split; [reflexivity | exact Lmvrv].
Qed.

(** C1 as stated fails: one fetched price gives a latest row with NaN RSI
    and NaN MVRV, and [generate_report] raises nothing: it prints and mails
    a report that reads "nan". *)
Lemma short_history_report_delivered :
  let env := mkEnv (inr NoColumns) (fun _ => inr NoColumns)
                   (fun _ _ => None) (fun _ _ => None) in
  let rows := [(mkDate 2024 3 9, Fin 100)] in
  let df := with_indicators (Rows rows) (map snd rows) in
  let report :=
    ("📊 Bitcoin Valuation Report (2024-03-09):" ++ nl
       ++ "Price: $100.00" ++ nl
       ++ "RSI: nan → Neutral/Bullish" ++ nl
       ++ "MACD: 0.00, Signal: 0.00 → Bearish" ++ nl
       ++ "MVRV: nan → Fairly Valued")%string in
  nth 0 (RSI df) NaN = NaN /\
  nth 0 (MVRV df) NaN = NaN /\
  generate_report env "Bitcoin" df world0 =
    (inr tt,
     mkWorld [report; "✅ Gmail alert sent."%string]
             [("Bitcoin Daily Valuation"%string, report)] []) /\
  (forall e, fst (generate_report env "Bitcoin" df world0) <> inl e).
Proof.
  cbv zeta. repeat split; try (vm_compute; reflexivity).
  intros e. vm_compute. discriminate.
Qed.

(* ------------------------------------------------------------------ *)
(** ** The theorems at work on concrete runs *)

Lemma generate_report_ignores_history_witness :
  one_row <> [] /\
  (length one_row < 15)%nat /\
  exists latest,
    iloc_last (with_indicators (Rows one_row) (map snd one_row))
      = inr latest /\
    row_MVRV latest = NaN /\
    row_RSI latest = NaN /\
    contains "RSI: nan → Neutral/Bullish" (report_text "Bitcoin" latest) /\
    contains "MVRV: nan → Fairly Valued" (report_text "Bitcoin" latest) /\
    generate_report env_all_up "Bitcoin"
      (with_indicators (Rows one_row) (map snd one_row)) world0 =
      (inr tt,
       mkWorld [report_text "Bitcoin" latest; mail_sent_line]
               [(alert_subject "Bitcoin", report_text "Bitcoin" latest)]
               []).
Proof.
  assert (Hne : one_row <> []) by discriminate.
  assert (Hlen : (length one_row < 15)%nat) by (simpl; lia).
  split; [exact Hne|]. split; [exact Hlen|].
  destruct (generate_report_ignores_history env_all_up "Bitcoin" one_row
              world0) as (_ & Hrows & Hnan).
  destruct (Hrows Hne)
    as (latest & Hlast & _ & _ & Hmvrv & Hrsi & Hsent & _).
  destruct (Hnan latest) as (Hr & _ & _ & _ & Hm).
  assert (Hm30 : row_MVRV latest = NaN) by (apply Hmvrv; simpl; lia).
  exists latest.
  split; [exact Hlast|]. split; [exact Hm30|]. split; [exact (Hrsi Hlen)|].
  split; [apply (Hr (Hrsi Hlen))|]. split; [apply (Hm Hm30)|].
  apply Hsent. reflexivity.
Defined.



Lemma macd_seed_and_constant_witness :
  0 < 5 /\
  Forall (fun x => x =f= Fin 5) flat31 /\
  (7 < length flat31)%nat /\
  nth 7 (fst (calculate_macd flat31 12 26 9)) NaN =f= Fin 0 /\
  nth 7 (snd (calculate_macd flat31 12 26 9)) NaN =f= Fin 0.
Proof.
  assert (Hc : 0 < 5) by reflexivity.
  assert (Hall : Forall (fun x => x =f= Fin 5) flat31)
    by (repeat constructor).
  assert (Hlen : (7 < length flat31)%nat) by (simpl; lia).
  split; [exact Hc|]. split; [exact Hall|]. split; [exact Hlen|].
  destruct macd_seed_and_constant as [_ Hconst].
  exact (Hconst flat31 5 7%nat Hc Hall Hlen).
Defined.

Lemma mvrv_constant_is_one_witness :
  0 < 5 /\
  Forall (fun x => x =f= Fin 5) flat31 /\
  (30 < length flat31)%nat /\
  nth 30 (simulate_mvrv flat31) NaN =f= Fin 1.
Proof.
  assert (Hc : 0 < 5) by reflexivity.
  assert (Hall : Forall (fun x => x =f= Fin 5) flat31)
    by (repeat constructor).
  assert (Hlen : (30 < length flat31)%nat) by (simpl; lia).
  split; [exact Hc|]. split; [exact Hall|]. split; [exact Hlen|].
  destruct (mvrv_constant_is_one flat31 5 30%nat Hc Hall Hlen)
    as (_ & Hone & _).
  apply Hone. lia.
Defined.

Lemma classification_tie_breaks_witness :
  iloc_last (with_indicators (Rows flat_rows) (map snd flat_rows))
    = inr latest_flat_row /\
  macd_trend latest_flat_row = "Bearish"%string /\
  mvrv_valuation latest_flat_row = "Fairly Valued"%string /\
  contains "MVRV: 1.00 → Fairly Valued" (report_text "Gold" latest_flat_row) /\
  rsi_zone boundary_row = "Neutral/Bullish"%string /\
  contains "RSI: 30.00 → Neutral/Bullish" (report_text "Gold" boundary_row).
Proof.
  split; [vm_compute; reflexivity|].
  destruct (classification_tie_breaks "Gold" latest_flat_row)
    as (_ & Hmacd & Hmvrv & _).
  destruct (Hmacd 0 0 eq_refl eq_refl) as (_ & Hbear & _).
  destruct (Hmvrv (150 # 150) eq_refl) as (_ & Hfair & Htext).
  destruct (classification_tie_breaks "Gold" boundary_row)
    as (Hrsi & _).
  destruct (Hrsi 30 eq_refl) as (_ & Hzone & Hline).
  split; [apply Hbear; discriminate|].
  split; [apply Hfair; discriminate|].
  split; [apply Htext; reflexivity|].
  split; [apply Hzone; discriminate | apply Hline; reflexivity].
Defined.

(** With the gold provider down, the Bitcoin and Ethereum reports are
    still printed, next to the warning for Gold. *)
Lemma main_isolates_assets_witness :
  fst (main env_gold_down world0) = inr tt /\
  In (error_line "Gold" (OtherException "connection refused"))
     (console (snd (main env_gold_down world0))) /\
  In (report_text "Bitcoin" latest_one_row)
     (console (snd (main env_gold_down world0))) /\
  In (report_text "Ethereum" latest_one_row)
     (console (snd (main env_gold_down world0))).
Proof.
  destruct (main_isolates_assets env_gold_down world0) as [Hok Hall].
  split; [exact Hok|]. split; [|split].
  - destruct (Hall "Gold"%string
                (inl (OtherException "connection refused")))
      as [_ Hfail].
    + left. reflexivity.
    + apply (Hfail _ world0). reflexivity.
  - destruct (Hall "Bitcoin"%string (inr (Rows one_row))) as [Hgood _].
    + right. left. reflexivity.
    + apply (Hgood (Rows one_row) (map snd one_row) latest_one_row);
        reflexivity.
  - destruct (Hall "Ethereum"%string (inr (Rows one_row))) as [Hgood _].
    + right. right. left. reflexivity.
    + apply (Hgood (Rows one_row) (map snd one_row) latest_one_row);
        reflexivity.
Defined.

Lemma rsi_zero_average_loss_witness :
  nth_error (rsi_avg_gain rising15 14) 14 = Some (Fin (14 # 14)) /\
  nth_error (rsi_avg_loss rising15 14) 14 = Some (Fin (0 # 14)) /\
  0 # 14 == 0 /\
  0 < 14 # 14 /\
  exists x, nth_error (calculate_rsi rising15 14) 14 = Some x /\
            x =f= Fin 100.
Proof.
  assert (Hg : nth_error (rsi_avg_gain rising15 14) 14
               = Some (Fin (14 # 14))) by (vm_compute; reflexivity).
  assert (Hl : nth_error (rsi_avg_loss rising15 14) 14
               = Some (Fin (0 # 14))) by (vm_compute; reflexivity).
  assert (Hz : 0 # 14 == 0) by reflexivity.
  assert (Hp : 0 < 14 # 14) by reflexivity.
  split; [exact Hg|]. split; [exact Hl|]. split; [exact Hz|].
  split; [exact Hp|].
  destruct (rsi_zero_average_loss rising15 14 14 (14 # 14) (0 # 14)
              Hg Hl Hz) as [Hpos _].
  exact (Hpos Hp).
Defined.

(* ------------------------------------------------------------------ *)
(** ** What a run adds to the world *)

Section Appending.

Variable env : Env.

Lemma world_app_world0_l d : world_app world0 d = d.
Proof. destruct d; reflexivity. Qed.

Lemma world_app_world0_r w : world_app w world0 = w.
Proof.
  destruct w; unfold world_app; simpl. now rewrite !app_nil_r.
Qed.

Lemma world_app_assoc w d1 d2 :
  world_app (world_app w d1) d2 = world_app w (world_app d1 d2).
Proof.
  unfold world_app; simpl. now rewrite !app_assoc.
Qed.

Lemma appends_ret {A} (a : A) : appends (ret a).
Proof. intros w. unfold ret; simpl. now rewrite world_app_world0_r. Qed.

Lemma appends_raise {A} (e : exn) : appends (@raise A e).
Proof. intros w. unfold raise; simpl. now rewrite world_app_world0_r. Qed.

Lemma appends_lift {A} (r : exn + A) : appends (lift r).
Proof. destruct r; [apply appends_raise | apply appends_ret]. Qed.

Lemma appends_print line : appends (print line).
Proof.
  intros w. unfold print, world_app; simpl. now rewrite !app_nil_r.
Qed.

Lemma appends_bind {A B} (m : M A) (k : A -> M B) :
  appends m -> (forall a, appends (k a)) -> appends (bind m k).
Proof.
  intros Hm Hk w. unfold bind.
  rewrite (Hm w). destruct (m world0) as [[e|a] d]; cbn [fst snd].
  - reflexivity.
  - rewrite (Hk a (world_app w d)), (Hk a d).
    cbn [fst snd]. now rewrite world_app_assoc.
Qed.

Lemma appends_try_except {A} (body : M A) (handler : exn -> M A) :
  appends body -> (forall e, appends (handler e)) ->
  appends (try_except body handler).
Proof.
  intros Hb Hh w. unfold try_except.
  rewrite (Hb w). destruct (body world0) as [[e|a] d]; cbn [fst snd].
  - rewrite (Hh e (world_app w d)), (Hh e d).
    cbn [fst snd]. now rewrite world_app_assoc.
  - reflexivity.
Qed.

Lemma appends_send_alert subject body : appends (send_alert env subject body).
Proof.
  unfold send_alert. apply appends_try_except.
  - destruct (smtp_send env subject body); [apply appends_raise|].
    apply appends_bind; [|intros; apply appends_print].
    intros w. unfold world_app; simpl. now rewrite !app_nil_r.
  - intros e. apply appends_print.
Qed.

Lemma appends_plot_indicators df asset :
  appends (plot_indicators env df asset).
Proof.
  unfold plot_indicators.
  destruct (savefig env asset df); [apply appends_raise|].
  intros w. unfold world_app; simpl. now rewrite !app_nil_r.
Qed.

Lemma appends_generate_report asset df :
  appends (generate_report env asset df).
Proof.
  unfold generate_report. apply appends_bind; [apply appends_lift|].
  intros latest. apply appends_bind; [apply appends_print|].
  intros _. apply appends_send_alert.
Qed.

Lemma appends_pipeline asset fetch_func :
  appends (pipeline env asset fetch_func).
Proof.
  unfold pipeline. apply appends_bind; [apply appends_lift|].
  intros fetched. apply appends_bind; [apply appends_lift|].
  intros price. apply appends_bind; [apply appends_plot_indicators|].
  intros _. apply appends_generate_report.
Qed.

Lemma appends_process_asset entry : appends (process_asset env entry).
Proof.
  destruct entry as [asset fetch_func]. unfold process_asset.
  apply appends_try_except; [apply appends_pipeline|].
  intros e. apply appends_print.
Qed.

Lemma appends_for_each items : appends (for_each env items).
Proof.
  induction items as [|entry rest IH]; cbn [for_each].
  - apply appends_ret.
  - apply appends_bind; [apply appends_process_asset | intros _; exact IH].
Qed.

(** What one turn of the loop leaves on an empty world: one warning, or
    a chart, the report and the status of the mail. *)
Lemma process_asset_from_scratch asset fetch_func :
  (exists e,
      fst (pipeline env asset fetch_func world0) = inl e /\
      console (snd (process_asset env (asset, fetch_func) world0))
        = [error_line asset e] /\
      outbox (snd (process_asset env (asset, fetch_func) world0)) = []) \/
  (exists fetched price latest,
      fetch_func = inr fetched /\
      getitem_Price fetched = inr price /\
      savefig env asset (with_indicators fetched price) = None /\
      iloc_last (with_indicators fetched price) = inr latest /\
      charts (snd (process_asset env (asset, fetch_func) world0))
        = [chart_name asset] /\
      ((smtp_send env (alert_subject asset) (report_text asset latest)
          = None /\
        console (snd (process_asset env (asset, fetch_func) world0))
          = [report_text asset latest; mail_sent_line] /\
        outbox (snd (process_asset env (asset, fetch_func) world0))
          = [(alert_subject asset, report_text asset latest)]) \/
       (exists e,
          smtp_send env (alert_subject asset) (report_text asset latest)
            = Some e /\
          console (snd (process_asset env (asset, fetch_func) world0))
            = [report_text asset latest; mail_failed_line e] /\
          outbox (snd (process_asset env (asset, fetch_func) world0))
            = []))).
Proof.
  unfold process_asset, try_except, pipeline, bind, lift, plot_indicators.
  destruct fetch_func as [e|fetched]; cbn [raise ret].
  { left. exists e. repeat split. }
  destruct (getitem_Price fetched) as [e|price] eqn:Hp; cbn [raise ret].
  { left. exists e. repeat split. }
  destruct (savefig env asset (with_indicators fetched price)) as [e|] eqn:Hs;
    cbn [raise].
  { left. exists e. repeat split. }
  unfold generate_report, bind, lift.
  destruct (iloc_last (with_indicators fetched price)) as [e|latest] eqn:Hl;
    cbn [raise ret].
  { left. exists e. repeat split. }
  right. exists fetched, price, latest.
  split; [reflexivity|]. split; [exact Hp|]. split; [exact Hs|].
  split; [exact Hl|].
  cbn [print]. rewrite send_alert_run. cbn [fst snd console outbox charts].
  fold (alert_subject asset).
  destruct (smtp_send env (alert_subject asset) (report_text asset latest))
    as [e|] eqn:Hm.
  - split; [reflexivity|]. right. exists e. repeat split.
  - split; [reflexivity|]. left. repeat split.
Qed.

End Appending.

Section RunFacts.

Variable env : Env.

Lemma for_each_from_scratch entry rest :
  snd (for_each env (entry :: rest) world0) =
  world_app (snd (process_asset env entry world0))
            (snd (for_each env rest world0)).
Proof.
  rewrite for_each_cons.
  now rewrite (appends_for_each env rest (snd (process_asset env entry world0))).
Qed.

Lemma main_from_scratch :
  snd (main env world0) =
  world_app (snd (process_asset env ("Gold"%string, fetch_gold_prices env)
                    world0))
    (world_app
       (snd (process_asset env
               ("Bitcoin"%string, fetch_crypto_prices env "bitcoin") world0))
       (snd (process_asset env
               ("Ethereum"%string, fetch_crypto_prices env "ethereum")
               world0))).
Proof.
  unfold main, assets. rewrite !for_each_from_scratch.
  cbn [for_each ret snd]. now rewrite world_app_world0_r.
Qed.

Lemma main_run w :
  main env w = (inr tt, world_app w (snd (main env world0))).
Proof.
  unfold main. rewrite (appends_for_each env (assets env) w).
  destruct (for_each_returns env (assets env) world0) as [Hok _].
  now rewrite Hok.
Qed.

Lemma console_block_of_turn asset fetch_func :
  console_block asset
    (console (snd (process_asset env (asset, fetch_func) world0))).
Proof.
  destruct (process_asset_from_scratch env asset fetch_func)
    as [(e & _ & Hc & _) | (fetched & price & latest & _ & _ & _ & _ & _ & H)].
  - left. exists e. exact Hc.
  - right. exists latest.
    destruct H as [(_ & Hc & _) | (e & _ & Hc & _)].
    + exists mail_sent_line. split; [exact Hc | now left].
    + exists (mail_failed_line e). split; [exact Hc | right; now exists e].
Qed.

Lemma mail_block_of_turn asset fetch_func :
  mail_block env asset
    (outbox (snd (process_asset env (asset, fetch_func) world0))).
Proof.
  destruct (process_asset_from_scratch env asset fetch_func)
    as [(e & _ & _ & Ho) | (fetched & price & latest & _ & _ & _ & _ & _ & H)].
  - now left.
  - destruct H as [(Hs & _ & Ho) | (e & _ & _ & Ho)].
    + right. exists latest. split; assumption.
    + now left.
Qed.

Lemma chart_block_of_turn asset fetch_func :
  chart_block env asset fetch_func
    (charts (snd (process_asset env (asset, fetch_func) world0))).
Proof.
  unfold chart_block, plotted.
  unfold process_asset, try_except, pipeline, bind, lift, plot_indicators.
  destruct fetch_func as [e|fetched]; cbn [raise ret].
  { right. split; [|reflexivity]. intros (f & p & H & _). discriminate. }
  destruct (getitem_Price fetched) as [e|price] eqn:Hp; cbn [raise ret].
  { right. split; [|reflexivity].
    intros (f & p & H & Hp' & _). injection H as <-. congruence. }
  destruct (savefig env asset (with_indicators fetched price)) as [e|] eqn:Hs;
    cbn [raise].
  { right. split; [|reflexivity].
    intros (f & p & H & Hp' & Hs'). injection H as <-.
    rewrite Hp in Hp'. injection Hp' as <-. congruence. }
  left. split; [now exists fetched, price|].
  set (w1 := mkWorld _ _ _).
  pose proof (appends_generate_report env asset
                (with_indicators fetched price) w1) as Hgen.
  assert (Hch : charts (snd (generate_report env asset
                               (with_indicators fetched price) world0)) = []).
  { unfold generate_report, bind, lift.
    destruct (iloc_last (with_indicators fetched price)); cbn [raise ret];
      [reflexivity|].
    cbn [print]. now rewrite send_alert_run;
      destruct (smtp_send env _ _). }
  destruct (generate_report env asset (with_indicators fetched price) w1)
    as [[e|[]] w2] eqn:E; injection Hgen as _ ->;
    cbn [snd print charts world_app]; rewrite Hch; reflexivity.
Qed.

End RunFacts.

(** X2.  The console after a run shows, in the order Gold, Bitcoin,
    Ethereum, for each asset either one warning line or its report followed
    by one line on the mail, and nothing else. *)
Theorem console_after_run :
  forall (env : Env) (w : World),
  exists gold bitcoin ethereum,
    console (snd (main env w))
      = console w ++ gold ++ bitcoin ++ ethereum /\
    console_block "Gold" gold /\
    console_block "Bitcoin" bitcoin /\
    console_block "Ethereum" ethereum.
Proof.
  intros env w. rewrite main_run, main_from_scratch.
  eexists _, _, _. split; [reflexivity|].
  repeat split; apply console_block_of_turn.
Qed.

(** X3.  A run sends at most one mail per asset, in the order of the
    table, and each mail carries the subject of its asset and a report that
    the mail server accepted; such a report is also on the console. *)
Theorem mails_after_run :
  forall (env : Env) (w : World),
  exists gold bitcoin ethereum,
    outbox (snd (main env w))
      = outbox w ++ gold ++ bitcoin ++ ethereum /\
    mail_block env "Gold" gold /\
    mail_block env "Bitcoin" bitcoin /\
    mail_block env "Ethereum" ethereum /\
    (length (gold ++ bitcoin ++ ethereum) <= 3)%nat /\
    (forall subject body,
        In (subject, body) (gold ++ bitcoin ++ ethereum) ->
        In body (console (snd (main env w)))).
Proof.
  intros env w. rewrite main_run, main_from_scratch.
  set (g := ("Gold"%string, fetch_gold_prices env)).
  set (b := ("Bitcoin"%string, fetch_crypto_prices env "bitcoin")).
  set (e := ("Ethereum"%string, fetch_crypto_prices env "ethereum")).
  exists (outbox (snd (process_asset env g world0))),
         (outbox (snd (process_asset env b world0))),
         (outbox (snd (process_asset env e world0))).
  split; [reflexivity|].
  pose proof (mail_block_of_turn env "Gold" (fetch_gold_prices env)) as Hg.
  pose proof (mail_block_of_turn env "Bitcoin"
                (fetch_crypto_prices env "bitcoin")) as Hb.
  pose proof (mail_block_of_turn env "Ethereum"
                (fetch_crypto_prices env "ethereum")) as He.
  fold g in Hg. fold b in Hb. fold e in He.
  split; [exact Hg|]. split; [exact Hb|]. split; [exact He|].
  assert (Hturn : forall asset f subject body,
             In (subject, body)
                (outbox (snd (process_asset env (asset, f) world0))) ->
             In body (console (snd (process_asset env (asset, f) world0)))).
  { intros asset f subject body Hin.
    destruct (process_asset_from_scratch env asset f)
      as [(x & _ & _ & Ho)
         | (fetched & price & latest & _ & _ & _ & _ & _ & H)].
    - rewrite Ho in Hin. contradiction.
    - destruct H as [(_ & Hc & Ho) | (x & _ & _ & Ho)];
        rewrite Ho in Hin; [|contradiction].
      destruct Hin as [Heq|[]]. injection Heq as _ <-.
      rewrite Hc. now left. }
  split.
  - rewrite !length_app.
    assert (Hlen : forall asset block,
               mail_block env asset block -> (length block <= 1)%nat).
    { intros asset block [->|(latest & -> & _)]; simpl; lia. }
    pose proof (Hlen _ _ Hg). pose proof (Hlen _ _ Hb).
    pose proof (Hlen _ _ He). lia.
  - intros subject body Hin. cbn [snd console world_app].
    apply in_or_app. right.
    apply in_app_or in Hin as [Hin|Hin];
      [|apply in_app_or in Hin as [Hin|Hin]].
    + apply in_or_app. left. eapply Hturn. exact Hin.
    + apply in_or_app. right. apply in_or_app. left.
      eapply Hturn. exact Hin.
    + apply in_or_app. right. apply in_or_app. right.
      eapply Hturn. exact Hin.
Qed.

(** X4.  A run writes the chart of an asset exactly when its fetch
    returned a frame with a [Price] column and matplotlib saved the
    figure, whether or not the report that follows succeeds; charts come in
    the order of the table. *)
Theorem charts_after_run :
  forall (env : Env) (w : World),
  exists gold bitcoin ethereum,
    charts (snd (main env w))
      = charts w ++ gold ++ bitcoin ++ ethereum /\
    chart_block env "Gold" (fetch_gold_prices env) gold /\
    chart_block env "Bitcoin" (fetch_crypto_prices env "bitcoin") bitcoin /\
    chart_block env "Ethereum" (fetch_crypto_prices env "ethereum") ethereum.
Proof.
  intros env w. rewrite main_run, main_from_scratch.
  eexists _, _, _. split; [reflexivity|].
  repeat split; apply chart_block_of_turn.
Qed.

(* ------------------------------------------------------------------ *)
(** ** The fetch functions *)

Section FetchFacts.

Import Fetch.

Lemma length_date_range_end today n :
  length (date_range_end today n) = n.
Proof.
  revert today; induction n as [|n IH]; intros today; simpl;
    [reflexivity|].
  rewrite length_app, IH. simpl. lia.
Qed.

Lemma last_date_range_end today n d0 :
  last (date_range_end today (S n)) d0 = today.
Proof. simpl. apply last_last. Qed.

Lemma nth_date_range_end today n i d0 :
  (S i < n)%nat ->
  nth i (date_range_end today n) d0 =
    prev_day (nth (S i) (date_range_end today n) d0).
Proof.
  revert today i; induction n as [|n IH]; intros today i Hi; [lia|].
  cbn [date_range_end].
  pose proof (length_date_range_end (prev_day today) n) as Hlen.
  rewrite (app_nth1 _ _ d0) by lia.
  destruct (Nat.eq_dec (S i) n) as [Heq|Hne].
  - rewrite (app_nth2 _ _ d0) by lia.
    rewrite Hlen, <- Heq, Nat.sub_diag. cbn [nth].
    subst n. cbn [date_range_end].
    rewrite (app_nth2 _ _ d0) by (rewrite length_date_range_end; lia).
    now rewrite length_date_range_end, Nat.sub_diag.
  - rewrite (app_nth1 _ _ d0) by lia. apply IH. lia.
Qed.

Lemma second_entries_ok points :
  Forall (fun p => (2 <= length p)%nat) points ->
  second_entries points = inr (map (fun p => nth 1 p NaN) points).
Proof.
  induction 1 as [|p points Hp _ IH]; [reflexivity|].
  cbn [second_entries map]. rewrite IH. unfold getitem_1.
  destruct p as [|t [|x p]]; simpl in Hp; try lia. reflexivity.
Qed.

Lemma second_entries_short points :
  Exists (fun p => (length p < 2)%nat) points ->
  second_entries points = inl (IndexError "list index out of range").
Proof.
  induction points as [|p points IH]; intros Hex.
  - inversion Hex.
  - cbn [second_entries]. unfold getitem_1.
    destruct p as [|t [|x p]]; try reflexivity. cbn [nth_error].
    rewrite IH; [reflexivity|].
    inversion Hex as [? ? Hp|? ? Hrest]; subst; [simpl in Hp; lia|].
    exact Hrest.
Qed.

Lemma map_fst_combine {A B} (l : list A) (l' : list B) :
  length l = length l' -> map fst (combine l l') = l.
Proof.
  revert l'; induction l as [|a l IH]; intros [|b l'] H; simpl in *;
    try lia; [reflexivity|].
  f_equal. apply IH. lia.
Qed.

Lemma map_snd_combine {A B} (l : list A) (l' : list B) :
  length l = length l' -> map snd (combine l l') = l'.
Proof.
  revert l'; induction l as [|a l IH]; intros [|b l'] H; simpl in *;
    try lia; [reflexivity|].
  f_equal. apply IH. lia.
Qed.

(** The last row of a frame with rows. *)
Lemma iloc_last_date_price rows r0 :
  rows <> [] ->
  exists latest,
    iloc_last (with_indicators (Rows rows) (map snd rows)) = inr latest /\
    row_Date latest = fst (last rows r0) /\
    row_Price latest = snd (last rows r0).
Proof.
  intros Hne.
  destruct (exists_last Hne) as (front & r & ->).
  unfold iloc_last.
  destruct (with_indicators_columns (Rows (front ++ [r]))
              (map snd (front ++ [r]))) as (HD & _ & _).
  assert (HP : Price (with_indicators (Rows (front ++ [r]))
                        (map snd (front ++ [r]))) = map snd (front ++ [r]))
    by reflexivity.
  rewrite HD, HP. cbn [getitem_Date].
  rewrite !map_app, rev_app_distr. cbn [map rev app].
  eexists. split; [reflexivity|]. cbn [row_Date row_Price].
  rewrite last_last. split; [reflexivity|].
  rewrite length_app, length_map. cbn [length].
  replace (length front + 1 - 1)%nat with (length front) by lia.
  rewrite app_nth2 by (rewrite length_map; lia).
  now rewrite length_map, Nat.sub_diag.
Qed.

Lemma fetch_crypto_ok points today :
  Forall (fun p => (2 <= length p)%nat) points ->
  let prices := map (fun p => nth 1 p NaN) points in
  fetch_crypto_prices (inr (Some points)) today =
    inr (Rows (combine (date_range_end today (length prices)) prices)) /\
  map fst (combine (date_range_end today (length prices)) prices)
    = date_range_end today (length points) /\
  map snd (combine (date_range_end today (length prices)) prices) = prices.
Proof.
  intros Hall prices. unfold fetch_crypto_prices.
  rewrite (second_entries_ok points Hall). fold prices.
  assert (Hlen : length (date_range_end today (length prices))
                 = length prices) by apply length_date_range_end.
  split; [reflexivity|].
  rewrite (map_fst_combine _ _ Hlen), (map_snd_combine _ _ Hlen).
  split; [|reflexivity]. unfold prices. now rewrite length_map.
Qed.

End FetchFacts.

(** X5.  [fetch_crypto_prices] on an answer whose points all have a
    timestamp and a price: it returns one row per point, priced by the
    second entry of the point, dated day after day, the last row being
    dated today. *)
Theorem fetch_crypto_rows :
  forall (points : list (list float64)) (today : date),
    Forall (fun p => (2 <= length p)%nat) points ->
    exists rows,
      Fetch.fetch_crypto_prices (inr (Some points)) today = inr (Rows rows) /\
      length rows = length points /\
      map snd rows = map (fun p => nth 1 p NaN) points /\
      (forall i d0, (S i < length rows)%nat ->
          nth i (map fst rows) d0 =
            Fetch.prev_day (nth (S i) (map fst rows) d0)) /\
      (points <> [] -> forall d0, last (map fst rows) d0 = today).
Proof.
  intros points today Hall.
  destruct (fetch_crypto_ok points today Hall) as (Hf & Hdates & Hprices).
  eexists. split; [exact Hf|].
  rewrite Hdates, Hprices.
  split; [|split; [reflexivity|split]].
  - rewrite <- (length_map snd), Hprices. apply length_map.
  - intros i d0 Hi.
    rewrite <- (length_map fst), Hdates, length_date_range_end in Hi.
    now apply nth_date_range_end.
  - intros Hne d0.
    destruct points as [|p points]; [congruence|].
    apply last_date_range_end.
Qed.

(** X6.  [fetch_crypto_prices] fails as follows: an exception of the HTTP
    exchange is passed on; an answer without the key ["prices"] (such as a
    rate-limit notice) raises KeyError 'prices'; an answer with a point of
    fewer than two entries raises IndexError. *)
Theorem fetch_crypto_failures :
  forall (today : date),
    (forall e, Fetch.fetch_crypto_prices (inl e) today = inl e) /\
    Fetch.fetch_crypto_prices (inr None) today = inl (KeyError "prices") /\
    (forall points,
        Exists (fun p => (length p < 2)%nat) points ->
        Fetch.fetch_crypto_prices (inr (Some points)) today
          = inl (IndexError "list index out of range")).
Proof.
  intros today. split; [reflexivity|]. split; [reflexivity|].
  intros points Hex. unfold Fetch.fetch_crypto_prices.
  now rewrite (second_entries_short points Hex).
Qed.

Section CryptoRuns.

Variable http : Fetch.Http.
Variable savefig_of : string -> DataFrame -> option exn.
Variable smtp_of : string -> string -> option exn.

Let env : Env := Fetch.env_of http savefig_of smtp_of.

(** A turn that fails before the chart adds one warning and nothing
    else. *)
Lemma turn_fails_before_plot asset fetch_func e w :
  fetch_func = inl e \/
  (exists fetched, fetch_func = inr fetched /\
                   getitem_Price fetched = inl e) ->
  process_asset env (asset, fetch_func) w =
    (inr tt,
     mkWorld (console w ++ [error_line asset e]) (outbox w) (charts w)).
Proof.
  intros [-> | (fetched & -> & Hp)];
    unfold process_asset, try_except, pipeline, bind, lift;
    cbn [raise ret]; [reflexivity|].
  rewrite Hp. reflexivity.
Qed.

(** A turn on a frame with a [Price] column and no row writes the chart
    and then fails on [df.iloc[-1]]. *)
Lemma turn_on_empty_frame asset w :
  savefig_of asset (with_indicators (Rows []) []) = None ->
  process_asset env (asset, inr (Rows [])) w =
    (inr tt,
     mkWorld (console w
                ++ [error_line asset
                      (IndexError
                         "single positional indexer is out-of-bounds")])
             (outbox w) (charts w ++ [chart_name asset])).
Proof.
  intros Hs.
  unfold process_asset, try_except, pipeline, bind, lift, plot_indicators.
  cbn [raise ret getitem_Price map].
  change (savefig env asset (with_indicators (Rows []) []))
    with (savefig_of asset (with_indicators (Rows []) [])).
  rewrite Hs. reflexivity.
Qed.

Lemma crypto_entry_in_assets asset coin :
  In (asset, coin)
     [("Bitcoin", "bitcoin"); ("Ethereum", "ethereum")]%string ->
  In (asset,
      Fetch.fetch_crypto_prices (Fetch.coingecko http coin)
                                (Fetch.clock http coin))
     (assets env).
Proof.
  intros [H|[H|[]]]; injection H as <- <-; unfold assets; simpl; auto.
Qed.

End CryptoRuns.

(** X7.  The report of a crypto asset is about today's last price: when
    CoinGecko answers with at least one well-formed point and the chart is
    saved, the run prints a report for the asset whose date is the day of
    the call and whose price is the price of the last point. *)
Theorem crypto_report_latest_point :
  forall (http : Fetch.Http) (savefig_of : string -> DataFrame -> option exn)
         (smtp_of : string -> string -> option exn) (w : World)
         (asset coin : string) (points : list (list float64)),
    In (asset, coin)
       [("Bitcoin", "bitcoin"); ("Ethereum", "ethereum")]%string ->
    Fetch.coingecko http coin = inr (Some points) ->
    points <> [] ->
    Forall (fun p => (2 <= length p)%nat) points ->
    (forall df, savefig_of asset df = None) ->
    exists latest,
      In (report_text asset latest)
         (console (snd (main (Fetch.env_of http savefig_of smtp_of) w))) /\
      row_Date latest = Fetch.clock http coin /\
      row_Price latest = nth 1 (last points []) NaN.
Proof.
  intros http savefig_of smtp_of w asset coin points Hin Hjson Hne Hall Hsave.
  set (env := Fetch.env_of http savefig_of smtp_of).
  destruct (fetch_crypto_ok points (Fetch.clock http coin) Hall)
    as (Hfetch & Hdates & Hprices).
  set (rows := combine _ _) in *.
  assert (Hlast : forall d0, last (map fst rows) d0 = Fetch.clock http coin).
  { intros d0. rewrite Hdates.
    destruct points as [|p points]; [congruence|].
    apply last_date_range_end. }
  assert (Hrows : rows <> []).
  { intros E. rewrite E in Hprices.
    destruct points; [congruence | discriminate]. }
  destruct (iloc_last_date_price rows
              (mkDate 0 0 0, NaN) Hrows) as (latest & Hiloc & Hd & Hp).
  exists latest. split; [|split].
  - apply (for_each_keeps env (assets env) asset
             (Fetch.fetch_crypto_prices (Fetch.coingecko http coin)
                                        (Fetch.clock http coin)) w
             (fun w' => In (report_text asset latest) (console w'))).
    + intros w1 w2 Hext. now apply extends_console.
    + intros w0.
      assert (Hf : Fetch.fetch_crypto_prices (Fetch.coingecko http coin)
                     (Fetch.clock http coin) = inr (Rows rows))
        by now rewrite Hjson.
      exact (proj1 (process_asset_success env asset _ (Rows rows)
                      (map snd rows) latest w0 Hf eq_refl
                      (Hsave _) Hiloc)).
    + now apply crypto_entry_in_assets.
  - rewrite Hd. rewrite <- (Hlast (mkDate 0 0 0)).
    clear. induction rows as [|r [|r' rows] IH]; try reflexivity.
    exact IH.
  - rewrite Hp.
    assert (Hs : snd (last rows (mkDate 0 0 0, NaN))
                 = last (map snd rows) NaN).
    { clear. induction rows as [|r [|r' rows] IH]; try reflexivity.
      exact IH. }
    rewrite Hs, Hprices. clear - Hne.
    induction points as [|p [|p' points] IH]; try congruence;
      try reflexivity.
    apply IH. discriminate.
Qed.

(** X8.  A crypto asset whose fetch fails leaves one warning and nothing
    else: when CoinGecko answers without the key ["prices"], the turn of
    the asset prints the warning with KeyError 'prices', writes no chart and
    sends no mail. *)
Theorem crypto_without_prices_key :
  forall (http : Fetch.Http) (savefig_of : string -> DataFrame -> option exn)
         (smtp_of : string -> string -> option exn) (w : World)
         (asset coin : string),
    Fetch.coingecko http coin = inr None ->
    process_asset (Fetch.env_of http savefig_of smtp_of)
      (asset, fetch_crypto_prices (Fetch.env_of http savefig_of smtp_of) coin)
      w =
    (inr tt,
     mkWorld (console w ++ [error_line asset (KeyError "prices")])
             (outbox w) (charts w)).
Proof.
  intros http savefig_of smtp_of w asset coin Hjson.
  apply turn_fails_before_plot. left.
  cbn [Fetch.env_of fetch_crypto_prices]. now rewrite Hjson.
Qed.

(** X9.  A crypto asset with an empty list of points gets its chart but no
    report: the fetch returns a frame without rows, the chart is saved, and
    [df.iloc[-1]] then raises, so the turn prints the IndexError warning
    and sends no mail. *)
Theorem crypto_with_no_points :
  forall (http : Fetch.Http) (savefig_of : string -> DataFrame -> option exn)
         (smtp_of : string -> string -> option exn) (w : World)
         (asset coin : string),
    Fetch.coingecko http coin = inr (Some []) ->
    savefig_of asset (with_indicators (Rows []) []) = None ->
    process_asset (Fetch.env_of http savefig_of smtp_of)
      (asset, fetch_crypto_prices (Fetch.env_of http savefig_of smtp_of) coin)
      w =
    (inr tt,
     mkWorld (console w
                ++ [error_line asset
                      (IndexError
                         "single positional indexer is out-of-bounds")])
             (outbox w) (charts w ++ [chart_name asset])).
Proof.
  intros http savefig_of smtp_of w asset coin Hjson Hsave.
  cbn [Fetch.env_of fetch_crypto_prices]. rewrite Hjson.
  cbn [Fetch.fetch_crypto_prices Fetch.second_entries length
         Fetch.date_range_end combine].
  now apply turn_on_empty_frame.
Qed.

Section GoldFacts.

Import Fetch.

Lemma ascii_compare_refl a : Ascii.compare a a = Eq.
Proof. unfold Ascii.compare. apply N.compare_refl. Qed.

Lemma string_compare_refl s : String.compare s s = Eq.
Proof.
  induction s as [|a s IH]; simpl; [reflexivity|].
  now rewrite ascii_compare_refl.
Qed.

Lemma string_leb_refl s : String.leb s s = true.
Proof. unfold String.leb. now rewrite string_compare_refl. Qed.

Lemma string_compare_le_trans a b c :
  String.compare a b <> Gt -> String.compare b c <> Gt ->
  String.compare a c <> Gt.
Proof.
  revert b c; induction a as [|x a IH]; intros [|y b] [|z c]; simpl;
    try congruence.
  unfold Ascii.compare.
  destruct (N.compare_spec (N_of_ascii x) (N_of_ascii y)) as [Hxy|Hxy|Hxy];
    destruct (N.compare_spec (N_of_ascii y) (N_of_ascii z)) as [Hyz|Hyz|Hyz];
    try congruence; intros Hab Hbc.
  - rewrite Hxy, Hyz, N.compare_refl. now apply (IH b c).
  - rewrite Hxy. apply N.compare_lt_iff in Hyz. now rewrite Hyz.
  - rewrite <- Hyz. apply N.compare_lt_iff in Hxy. now rewrite Hxy.
  - assert (H : (N_of_ascii x < N_of_ascii z)%N) by lia.
    apply N.compare_lt_iff in H. now rewrite H.
Qed.

Lemma string_leb_trans a b c :
  String.leb a b = true -> String.leb b c = true -> String.leb a c = true.
Proof.
  unfold String.leb. intros Hab Hbc.
  pose proof (string_compare_le_trans a b c) as H.
  destruct (String.compare a b), (String.compare b c),
    (String.compare a c); try discriminate; try reflexivity;
    exfalso; apply H; congruence.
Qed.

Lemma key_le_refl x : key_le x x.
Proof. apply string_leb_refl. Qed.

Lemma key_le_trans x y z : key_le x y -> key_le y z -> key_le x z.
Proof. apply string_leb_trans. Qed.

Lemma key_le_total x y : key_le x y \/ key_le y x.
Proof. apply String.leb_total. Qed.

Lemma insert_sorted_perm x l : Permutation (x :: l) (insert_sorted x l).
Proof.
  induction l as [|y l IH]; simpl; [reflexivity|].
  destruct (String.leb (entry_key x) (entry_key y)); [reflexivity|].
  rewrite perm_swap. now constructor.
Qed.

Lemma sorted_items_perm data : Permutation data (sorted_items data).
Proof.
  induction data as [|x data IH]; simpl; [constructor|].
  rewrite <- insert_sorted_perm. now constructor.
Qed.

Lemma insert_sorted_sorted x l :
  StronglySorted key_le l -> StronglySorted key_le (insert_sorted x l).
Proof.
  induction 1 as [|y l Hl IH Hy]; simpl.
  - constructor; constructor.
  - destruct (String.leb (entry_key x) (entry_key y)) eqn:E.
    + constructor; [now constructor|].
      constructor; [exact E|].
      eapply Forall_impl; [|exact Hy].
      intros z Hz. eapply key_le_trans; [exact E | exact Hz].
    + constructor; [exact IH|].
      assert (Hyx : key_le y x).
      { destruct (key_le_total x y) as [H|H]; [|exact H].
        unfold key_le in H. congruence. }
      apply Forall_forall. intros z Hz.
      apply (Permutation_in _ (Permutation_sym (insert_sorted_perm x l)))
        in Hz.
      destruct Hz as [<-|Hz]; [exact Hyx|].
      rewrite Forall_forall in Hy. now apply Hy.
Qed.

Lemma sorted_items_sorted data : StronglySorted key_le (sorted_items data).
Proof.
  induction data as [|x data IH]; simpl; [constructor|].
  now apply insert_sorted_sorted.
Qed.

(** The last item of a sorted list is a greatest one. *)
Lemma sorted_last_greatest l x0 :
  StronglySorted key_le l -> l <> [] ->
  In (last l x0) l /\ forall y, In y l -> key_le y (last l x0).
Proof.
  induction 1 as [|x l Hl IH Hx]; intros Hne; [congruence|].
  destruct l as [|x' l].
  - simpl. split; [now left|]. intros y [<-|[]]. apply key_le_refl.
  - destruct IH as [Hin Hmax]; [discriminate|].
    change (last (x :: x' :: l) x0) with (last (x' :: l) x0).
    split; [now right|].
    intros y [<-|Hy]; [|now apply Hmax].
    rewrite Forall_forall in Hx. now apply Hx.
Qed.

Lemma rows_of_entries_inr items rows :
  rows_of_entries items = inr rows ->
  Forall2 (fun x r => row_of_entry x = inr r) items rows.
Proof.
  revert rows; induction items as [|x items IH]; intros rows H; simpl in H.
  - injection H as <-. constructor.
  - destruct (row_of_entry x) as [e|r] eqn:Hx; [discriminate|].
    destruct (rows_of_entries items) as [e|rs]; [discriminate|].
    injection H as <-. constructor; [exact Hx|]. now apply IH.
Qed.

Lemma rows_of_entries_inl items :
  (exists e, rows_of_entries items = inl e) <-> Exists entry_fails items.
Proof.
  induction items as [|x items IH]; simpl.
  - split; [intros [e H]; discriminate | intros H; inversion H].
  - destruct (row_of_entry x) as [e|r] eqn:Hx.
    + split; [|now exists e]. intros _. left. now exists e.
    + destruct (rows_of_entries items) as [e|rs].
      * split; [|now exists e]. intros _. right. apply IH. now exists e.
      * split; [intros [e H]; discriminate|].
        intros H. inversion H as [? ? [e He]|? ? Hrest]; subst.
        -- congruence.
        -- apply IH in Hrest as [e He]. discriminate.
Qed.

Lemma length_tail {A} n (l : list A) :
  length (tail n l) = Nat.min (length l) n.
Proof. unfold tail. rewrite length_skipn. lia. Qed.

Lemma tail_suffix {A} n (l : list A) :
  exists front, l = front ++ tail n l.
Proof.
  exists (firstn (length l - n) l). unfold tail.
  now rewrite firstn_skipn.
Qed.

Lemma last_app_nonempty {A} (l1 l2 : list A) d :
  l2 <> [] -> last (l1 ++ l2) d = last l2 d.
Proof.
  intros Hne. destruct (exists_last Hne) as (front & x & ->).
  now rewrite app_assoc, !last_last.
Qed.

Lemma last_tail {A} n (l : list A) d :
  (1 <= n)%nat -> l <> [] -> last (tail n l) d = last l d.
Proof.
  intros Hn Hne. destruct (tail_suffix n l) as [front Hl].
  rewrite Hl at 2. symmetry. apply last_app_nonempty.
  intros Hnil. pose proof (length_tail n l) as Hlen.
  rewrite Hnil in Hlen.
  destruct l; [congruence | cbn [length] in Hlen; lia].
Qed.

Lemma Forall2_last {A B} (R : A -> B -> Prop) l l' a0 b0 :
  Forall2 R l l' -> l <> [] -> R (last l a0) (last l' b0).
Proof.
  induction 1 as [|a b l l' Hab Hl IH]; intros Hne; [congruence|].
  destruct Hl as [|a' b' l l' Hab' Hl]; [exact Hab|].
  change (R (last (a' :: l) a0) (last (b' :: l') b0)).
  apply IH. discriminate.
Qed.

Lemma Forall2_in_r {A B} (R : A -> B -> Prop) l l' b :
  Forall2 R l l' -> In b l' -> exists a, In a l /\ R a b.
Proof.
  induction 1 as [|a b' l l' Hab _ IH]; intros Hin; [contradiction|].
  destruct Hin as [<-|Hin].
  - exists a. split; [now left | exact Hab].
  - destruct (IH Hin) as (a' & Ha & HR). exists a'. split; [now right|].
    exact HR.
Qed.

End GoldFacts.

(** X10.  [fetch_gold_prices] on an answer all of whose items parse:
    the frame has min(n, 180) rows for n items, every row comes from an
    item, and the last row is the item with the greatest key, that is the
    latest day, in whatever order the provider lists the days. *)
Theorem fetch_gold_rows :
  forall (data : list Fetch.DailyEntry) (rows : list (date * float64)),
    Fetch.fetch_gold_prices (inr (Some data)) = inr (Rows rows) ->
    length rows = Nat.min (length data) Fetch.DAYS /\
    rows <> [] /\
    (forall r, In r rows ->
               exists x, In x data /\ Fetch.row_of_entry x = inr r) /\
    (exists x, In x data /\
               (forall y, In y data -> key_le y x) /\
               forall r0, Fetch.row_of_entry x = inr (last rows r0)).
Proof.
  intros data rows H. unfold Fetch.fetch_gold_prices in H.
  destruct (Fetch.rows_of_entries (Fetch.sorted_items data))
    as [e|all] eqn:Hall; [discriminate|].
  destruct all as [|r1 all]; [discriminate|].
  injection H as <-.
  set (full := r1 :: all) in *.
  pose proof (rows_of_entries_inr _ _ Hall) as Hrel.
  pose proof (sorted_items_perm data) as Hperm.
  pose proof (sorted_items_sorted data) as Hsorted.
  assert (Hlen : length full = length data).
  { rewrite <- (Forall2_length Hrel). symmetry.
    now apply Permutation_length. }
  assert (Hitems : Fetch.sorted_items data <> []).
  { intros E. rewrite E in Hrel. inversion Hrel. }
  assert (Hfull : full <> []) by discriminate.
  split; [|split; [|split]].
  - rewrite length_tail. lia.
  - intros E. pose proof (length_tail Fetch.DAYS full) as Hl.
    rewrite E, Hlen in Hl. unfold full in Hlen.
    cbn [length] in Hl, Hlen. unfold Fetch.DAYS in Hl. lia.
  - intros r Hr.
    destruct (tail_suffix Fetch.DAYS full) as [front Hsplit].
    assert (Hin : In r full).
    { rewrite Hsplit. apply in_or_app. now right. }
    destruct (Forall2_in_r _ _ _ r Hrel Hin) as (x & Hx & Hrow).
    exists x. split; [|exact Hrow].
    eapply Permutation_in; [apply Permutation_sym; exact Hperm | exact Hx].
  - set (x0 := Fetch.mkDailyEntry EmptyString (inl (KeyError EmptyString))
                                  (inl (KeyError EmptyString))).
    destruct (sorted_last_greatest _ x0 Hsorted Hitems) as [Hin Hmax].
    exists (last (Fetch.sorted_items data) x0). split; [|split].
    + eapply Permutation_in; [apply Permutation_sym; exact Hperm | exact Hin].
    + intros y Hy. apply Hmax.
      eapply Permutation_in; [exact Hperm | exact Hy].
    + intros r0. rewrite last_tail by (unfold Fetch.DAYS; auto; lia).
      apply (Forall2_last _ _ _ x0 r0 Hrel Hitems).
Qed.

(** X11.  [fetch_gold_prices] gives no partial frame: on an answer with a
    daily series it raises exactly when the date or the close of some item
    does not parse. *)
Theorem fetch_gold_all_or_nothing :
  forall (data : list Fetch.DailyEntry),
    (exists e, Fetch.fetch_gold_prices (inr (Some data)) = inl e) <->
    Exists entry_fails data.
Proof.
  intros data. unfold Fetch.fetch_gold_prices.
  pose proof (rows_of_entries_inl (Fetch.sorted_items data)) as Hiff.
  pose proof (sorted_items_perm data) as Hperm.
  assert (Hex : Exists entry_fails (Fetch.sorted_items data)
                <-> Exists entry_fails data).
  { rewrite !Exists_exists. split; intros (x & Hx & Hf); exists x;
      (split; [|exact Hf]).
    - eapply Permutation_in; [apply Permutation_sym; exact Hperm | exact Hx].
    - eapply Permutation_in; [exact Hperm | exact Hx]. }
  rewrite <- Hex, <- Hiff.
  destruct (Fetch.rows_of_entries (Fetch.sorted_items data)) as [e|[|r rs]].
  - split; intros _; now exists e.
  - split; intros [e H]; discriminate.
  - split; intros [e H]; discriminate.
Qed.

(** X12.  When Alpha Vantage answers without a daily series (a rate-limit
    or error notice) or with an empty one, the turn of Gold prints the
    warning with KeyError 'Price', raised by [df['Price']] on a frame
    without columns, and writes no chart and sends no mail. *)
Theorem gold_without_series :
  forall (http : Fetch.Http) (savefig_of : string -> DataFrame -> option exn)
         (smtp_of : string -> string -> option exn) (w : World),
    Fetch.alpha_vantage http = inr None \/
    Fetch.alpha_vantage http = inr (Some []) ->
    process_asset (Fetch.env_of http savefig_of smtp_of)
      ("Gold"%string,
       fetch_gold_prices (Fetch.env_of http savefig_of smtp_of)) w =
    (inr tt,
     mkWorld (console w ++ [error_line "Gold" (KeyError "Price")])
             (outbox w) (charts w)).
Proof.
  intros http savefig_of smtp_of w Hjson.
  apply turn_fails_before_plot. right. exists NoColumns.
  split; [|reflexivity].
  cbn [Fetch.env_of fetch_gold_prices].
  destruct Hjson as [-> | ->]; reflexivity.
Qed.

(* ------------------------------------------------------------------ *)
(** ** More on the indicators *)

Section IndicatorFacts.







End IndicatorFacts.

(** X13.  Where both rolling averages are numbers and not both zero, the
    value computed by [calculate_rsi] as 100 - 100/(1 + rs) is the usual
    100 * gain / (gain + loss), also when the average loss is zero. *)
Theorem rsi_closed_form :
  forall (prices : Series) (window i : nat) (g l : Q),
    nth_error (rsi_avg_gain prices window) i = Some (Fin g) ->
    nth_error (rsi_avg_loss prices window) i = Some (Fin l) ->
    0 < g + l ->
    exists x, nth_error (calculate_rsi prices window) i = Some x /\
              x =f= Fin (100 * g / (g + l)).
Proof.
  intros prices window i g l Hg Hl Hpos.
  apply nth_error_nth_in in Hg as [Hi Hg].
  apply nth_error_nth_in in Hl as [_ Hl].
  unfold rsi_avg_gain in Hi.
  rewrite length_rolling_mean, length_rsi_gain in Hi.
  assert (Hg0 : 0 <= g).
  { pose proof (rolling_mean_nonneg window (rsi_gain prices) i
                  (Forall_rsi_gain prices)) as H.
    rewrite length_rsi_gain in H. specialize (H Hi).
    unfold rsi_avg_gain in Hg. now rewrite Hg in H. }
  assert (Hl0 : 0 <= l).
  { pose proof (rolling_mean_nonneg window (rsi_loss prices) i
                  (Forall_rsi_loss prices)) as H.
    rewrite length_rsi_loss in H. specialize (H Hi).
    unfold rsi_avg_loss in Hl. now rewrite Hl in H. }
  exists (rsi_of_rs (fdiv (Fin g) (Fin l))). split.
  - rewrite (nth_error_nth' _ NaN) by now rewrite length_calculate_rsi.
    rewrite nth_calculate_rsi by assumption. now rewrite Hg, Hl.
  - destruct (Qlt_le_dec 0 l) as [Hlpos|Hlle].
    + destruct (rsi_of_ratio g l Hg0 Hlpos) as (-> & _).
      cbv [feq]. field. split; lra.
    + assert (Hz : l == 0) by lra.
      assert (Hgpos : 0 < g) by lra.
      destruct (rsi_of_ratio_zero_loss g l Hz) as [Hrsi _].
      rewrite (Hrsi Hgpos).
      cbv [feq]. rewrite Hz. field. lra.
Qed.


Lemma Qdiv_lt_one a m : 0 < m -> (a / m < 1 <-> a < m).
Proof.
  intros Hm. split; intros H.
  - assert (Heq : a == a / m * m) by (field; lra).
    assert (Hlt : a / m * m < 1 * m)
      by (apply Qmult_lt_compat_r; assumption).
    lra.
  - apply Qlt_shift_div_r; [exact Hm | lra].
Qed.

(** X15.  On positive prices, from index 29 on, the MVRV is below 1
    exactly when the price of the day is below the mean of the last 30
    prices; so the report says "Undervalued" exactly then. *)
Theorem mvrv_below_one_iff :
  forall (prices : Series) (i : nat),
    Forall positive_price prices ->
    (29 <= i)%nat -> (i < length prices)%nat ->
    exists p m,
      nth i prices NaN = Fin p /\
      nth i (rolling_mean 30 prices) NaN = Fin m /\
      (flt (nth i (simulate_mvrv prices) NaN) (Fin 1) = true <-> p < m).
Proof.
  intros prices i Hpos H29 Hi.
  destruct (positive_series prices Hpos) as (ps & -> & Hps).
  rewrite length_map in Hi.
  destruct (mvrv_fin ps i H29 Hi Hps) as [Hm Hmvrv].
  set (m := qsum (firstn 30 (skipn (i + 1 - 30) ps))
            / inject_Z (Z.of_nat 30)) in *.
  exists (nth i ps 0), m. split; [now apply nth_fin|].
  split; [apply rolling_fin; lia|].
  rewrite Hmvrv, flt_fin. now apply Qdiv_lt_one.
Qed.

Section Rounding.

(** Rounding to hundredths, ties to even, just below an even number of
    hundredths. *)
Lemma round_half_even_up (r : Q) (c : Z) :
  Z.even c = true -> (0 < c)%Z ->
  inject_Z (2 * c - 1) / 200 <= r -> r < inject_Z c / 100 ->
  round_half_even (Qabs r * 100) = c.
Proof.
  intros Heven Hc Hlo Hhi. destruct r as [n d].
  assert (Hlo' : ((2 * c - 1) * Zpos d <= 200 * n)%Z).
  { unfold Qle, Qdiv, Qmult, Qinv, inject_Z in Hlo.
    cbn [Qnum Qden] in Hlo. rewrite ?Pos2Z.inj_mul in Hlo. lia. }
  assert (Hhi' : (100 * n < c * Zpos d)%Z).
  { unfold Qlt, Qdiv, Qmult, Qinv, inject_Z in Hhi.
    cbn [Qnum Qden] in Hhi. rewrite ?Pos2Z.inj_mul in Hhi. lia. }
  assert (Hn : (0 < n)%Z) by nia.
  unfold round_half_even, Qabs, Qmult. cbn [Qnum Qden].
  rewrite Z.abs_eq by lia.
  replace (Zpos (d * 1)) with (Zpos d) by (now rewrite Pos.mul_1_r).
  set (rem := (n * 100 - (c - 1) * Zpos d)%Z).
  assert (Hrem : (0 <= rem < Zpos d)%Z) by (unfold rem; lia).
  assert (Hdiv : (n * 100 / Zpos d = c - 1)%Z).
  { symmetry. apply (Z.div_unique _ _ _ rem); [lia | unfold rem; lia]. }
  assert (Hmod : ((n * 100) mod Zpos d = rem)%Z).
  { symmetry. apply (Z.mod_unique _ _ (c - 1)); [lia | unfold rem; lia]. }
  rewrite Hdiv, Hmod.
  assert (Hodd : Z.even (c - 1) = false).
  { rewrite Z.even_sub, Heven. reflexivity. }
  destruct (Z.compare_spec (2 * rem) (Zpos d)) as [H|H|H].
  - rewrite Hodd. lia.
  - unfold rem in H. lia.
  - lia.
Qed.

End Rounding.

(** X17.  The number shown in the report and the class next to it can
    disagree at a boundary, because the class is taken from the value and
    the text from its rounding: an RSI from 29.995 up to but not including
    30 is printed as 30.00 with "Oversold", and an MVRV from 0.995 up to
    but not including 1 is printed as 1.00 with "Undervalued". *)
Theorem report_rounds_across_boundary :
  forall (latest : Row),
    (forall r, row_RSI latest = Fin r -> 29995 # 1000 <= r -> r < 30 ->
               format_2f (row_RSI latest) = "30.00"%string /\
               rsi_zone latest = "Oversold"%string) /\
    (forall v, row_MVRV latest = Fin v -> 995 # 1000 <= v -> v < 1 ->
               format_2f (row_MVRV latest) = "1.00"%string /\
               mvrv_valuation latest = "Undervalued"%string).
Proof.
  intros latest. split.
  - intros r Hr Hlo Hhi. unfold rsi_zone. rewrite Hr. split.
    + cbn [format_2f].
      rewrite (round_half_even_up r 3000); try reflexivity.
      * assert (E : Qle_bool 0 r = true) by (apply Qle_bool_iff; lra).
        rewrite E. reflexivity.
      * assert (H : inject_Z (2 * 3000 - 1) / 200 == 29995 # 1000)
          by reflexivity.
        rewrite H. exact Hlo.
      * assert (H : inject_Z 3000 / 100 == 30) by reflexivity.
        rewrite H. exact Hhi.
    + apply flt_fin in Hhi. now rewrite Hhi.
  - intros v Hv Hlo Hhi. unfold mvrv_valuation. rewrite Hv. split.
    + cbn [format_2f].
      rewrite (round_half_even_up v 100); try reflexivity.
      * assert (E : Qle_bool 0 v = true) by (apply Qle_bool_iff; lra).
        rewrite E. reflexivity.
      * assert (H : inject_Z (2 * 100 - 1) / 200 == 995 # 1000)
          by reflexivity.
        rewrite H. exact Hlo.
      * assert (H : inject_Z 100 / 100 == 1) by reflexivity.
        rewrite H. exact Hhi.
    + apply flt_fin in Hhi. now rewrite Hhi.
Qed.

(* ------------------------------------------------------------------ *)
(** ** The further properties at work on concrete runs *)

Lemma mails_after_run_witness :
  In (report_text "Gold" latest_one_row)
     (console (snd (main env_all_up world0))).
Proof.
  destruct (mails_after_run env_all_up world0)
    as (g & b & e & Hout & _ & _ & _ & _ & Hin).
  apply (Hin (alert_subject "Gold")).
  change (outbox world0 ++ g ++ b ++ e) with (g ++ b ++ e) in Hout.
  rewrite <- Hout. vm_compute. left. reflexivity.
Defined.

Lemma fetch_crypto_rows_witness :
  Forall (fun p => (2 <= length p)%nat) two_points /\
  exists rows,
    Fetch.fetch_crypto_prices (inr (Some two_points)) (mkDate 2024 3 1)
      = inr (Rows rows) /\
    length rows = 2%nat /\
    (forall d0, last (map fst rows) d0 = mkDate 2024 3 1).
Proof.
  assert (Hall : Forall (fun p => (2 <= length p)%nat) two_points)
    by (repeat constructor).
  split; [exact Hall|].
  destruct (fetch_crypto_rows two_points (mkDate 2024 3 1) Hall)
    as (rows & Hf & Hlen & _ & _ & Hlast).
  exists rows. split; [exact Hf|]. split; [exact Hlen|].
  apply Hlast. discriminate.
Defined.

Lemma fetch_crypto_failures_witness :
  Exists (fun p => (length p < 2)%nat) [[Fin 1]] /\
  Fetch.fetch_crypto_prices (inr (Some [[Fin 1]])) (mkDate 2024 3 1)
    = inl (IndexError "list index out of range").
Proof.
  assert (Hex : Exists (fun p => (length p < 2)%nat) [[Fin 1]])
    by (constructor; simpl; lia).
  split; [exact Hex|].
  destruct (fetch_crypto_failures (mkDate 2024 3 1)) as (_ & _ & Hshort).
  exact (Hshort _ Hex).
Defined.

Lemma crypto_report_latest_point_witness :
  exists latest,
    In (report_text "Bitcoin" latest)
       (console (snd (main (Fetch.env_of http_sample savefig_ok smtp_ok)
                           world0))) /\
    row_Date latest = mkDate 2024 3 1 /\
    row_Price latest = Fin 101.
Proof.
  apply (crypto_report_latest_point http_sample savefig_ok smtp_ok world0
           "Bitcoin" "bitcoin" two_points).
  - left. reflexivity.
  - reflexivity.
  - discriminate.
  - repeat constructor.
  - intros df. reflexivity.
Defined.

Lemma crypto_without_prices_key_witness :
  process_asset (Fetch.env_of http_limited savefig_ok smtp_ok)
    ("Bitcoin"%string,
     fetch_crypto_prices (Fetch.env_of http_limited savefig_ok smtp_ok)
       "bitcoin") world0 =
  (inr tt,
   mkWorld [error_line "Bitcoin" (KeyError "prices")] [] []).
Proof.
  apply (crypto_without_prices_key http_limited savefig_ok smtp_ok world0
           "Bitcoin" "bitcoin").
  reflexivity.
Defined.

Lemma crypto_with_no_points_witness :
  process_asset (Fetch.env_of http_sample savefig_ok smtp_ok)
    ("Ethereum"%string,
     fetch_crypto_prices (Fetch.env_of http_sample savefig_ok smtp_ok)
       "ethereum") world0 =
  (inr tt,
   mkWorld [error_line "Ethereum"
              (IndexError "single positional indexer is out-of-bounds")]
           [] ["ethereum_chart.png"%string]).
Proof.
  apply (crypto_with_no_points http_sample savefig_ok smtp_ok world0
           "Ethereum" "ethereum"); reflexivity.
Defined.

Lemma fetch_gold_rows_witness :
  Fetch.fetch_gold_prices (inr (Some gold_items)) = inr (Rows gold_rows) /\
  length gold_rows = Nat.min (length gold_items) Fetch.DAYS /\
  exists x, In x gold_items /\
            (forall y, In y gold_items -> key_le y x) /\
            forall r0, Fetch.row_of_entry x = inr (last gold_rows r0).
Proof.
  assert (Hf : Fetch.fetch_gold_prices (inr (Some gold_items))
               = inr (Rows gold_rows)) by reflexivity.
  split; [exact Hf|].
  destruct (fetch_gold_rows gold_items gold_rows Hf) as (Hlen & _ & _ & Hmax).
  split; [exact Hlen | exact Hmax].
Defined.

Lemma fetch_gold_all_or_nothing_witness :
  Exists entry_fails (gold_item_unpriced :: gold_items) /\
  exists e,
    Fetch.fetch_gold_prices (inr (Some (gold_item_unpriced :: gold_items)))
      = inl e.
Proof.
  assert (Hex : Exists entry_fails (gold_item_unpriced :: gold_items)).
  { left. exists (KeyError "4. close"). reflexivity. }
  split; [exact Hex|].
  exact (proj2 (fetch_gold_all_or_nothing
                  (gold_item_unpriced :: gold_items)) Hex).
Defined.

Lemma gold_without_series_witness :
  process_asset (Fetch.env_of http_limited savefig_ok smtp_ok)
    ("Gold"%string,
     fetch_gold_prices (Fetch.env_of http_limited savefig_ok smtp_ok))
    world0 =
  (inr tt, mkWorld [error_line "Gold" (KeyError "Price")] [] []).
Proof.
  apply (gold_without_series http_limited savefig_ok smtp_ok world0).
  left. reflexivity.
Defined.

Lemma rsi_closed_form_witness :
  nth_error (rsi_avg_gain mixed16 14) 14 = Some (Fin (18 # 14)) /\
  nth_error (rsi_avg_loss mixed16 14) 14 = Some (Fin (4 # 14)) /\
  0 < (18 # 14) + (4 # 14) /\
  exists x, nth_error (calculate_rsi mixed16 14) 14 = Some x /\
            x =f= Fin (100 * (18 # 14) / ((18 # 14) + (4 # 14))).
Proof.
  assert (Hg : nth_error (rsi_avg_gain mixed16 14) 14
               = Some (Fin (18 # 14))) by (vm_compute; reflexivity).
  assert (Hl : nth_error (rsi_avg_loss mixed16 14) 14
               = Some (Fin (4 # 14))) by (vm_compute; reflexivity).
  assert (Hp : 0 < (18 # 14) + (4 # 14)) by reflexivity.
  split; [exact Hg|]. split; [exact Hl|]. split; [exact Hp|].
  exact (rsi_closed_form mixed16 14 14 (18 # 14) (4 # 14) Hg Hl Hp).
Defined.


Lemma mvrv_below_one_iff_witness :
  Forall positive_price rising31 /\
  (30 < length rising31)%nat /\
  exists p m,
    nth 30 rising31 NaN = Fin p /\
    nth 30 (rolling_mean 30 rising31) NaN = Fin m /\
    (flt (nth 30 (simulate_mvrv rising31) NaN) (Fin 1) = true <-> p < m).
Proof.
  assert (Hpos : Forall positive_price rising31) by (repeat constructor).
  assert (Hlen : (30 < length rising31)%nat) by (simpl; lia).
  split; [exact Hpos|]. split; [exact Hlen|].
  apply (mvrv_below_one_iff rising31 30 Hpos); [lia | exact Hlen].
Defined.

Lemma report_rounds_across_boundary_witness :
  format_2f (row_RSI near_boundary_row) = "30.00"%string /\
  rsi_zone near_boundary_row = "Oversold"%string /\
  format_2f (row_MVRV near_boundary_row) = "1.00"%string /\
  mvrv_valuation near_boundary_row = "Undervalued"%string.
Proof.
  destruct (report_rounds_across_boundary near_boundary_row) as [Hrsi Hmvrv].
  destruct (Hrsi (29996 # 1000) eq_refl) as [H1 H2];
    [discriminate | reflexivity|].
  destruct (Hmvrv (999 # 1000) eq_refl) as [H3 H4];
    [discriminate | reflexivity|].
  repeat split; assumption.
Defined.
